(** * Comment-stripping conversion script

    A shallow embedding of [src/template/convert_to_no_comment.js] and the
    properties of the calls it issues to the document-editing host.

    The script is twenty-one lines of JavaScript run inside a host that
    provides the globals [builder] and [Api].  The two placeholders
    [${fileUrl}] and [${ext}] are filled in textually before the script is
    run; here the parameters [fileUrl] and [ext] are the values of the two
    string literals that result.

    The host is a parameter: a record of operations on a store.  The store
    holds the JavaScript arrays the script can reach, which the host creates
    and may update in place, next to the host's own world.  A run returns its
    outcome, the final store and the log of the host calls it issued, each
    with its result.  The [for] loop reads [aComments.length] again on every
    turn, so it need not end on every host; it runs on fuel. *)

From Stdlib Require Import String Ascii List Arith Bool Lia.
From stdpp Require Import base option list gmap strings.
Import ListNotations.

Set Implicit Arguments.
Local Open Scope string_scope.
Local Open Scope list_scope.

(** ** Values, errors and the store *)

(** Heap addresses of JavaScript objects. *)
Definition loc := nat.

(** The values the script holds in [oDocument], [aComments] and
    [aComments[i]]: either [undefined] or a reference to an object (a host
    object such as a document or a comment, or a JavaScript array). *)
Inductive value : Type :=
  | VUndefined
  | VRef (r : loc).

(** What a [throw] carries: a [TypeError] raised by the JavaScript engine
    (property access on [undefined]), or a failure raised inside a host
    operation. *)
Inductive error : Type :=
  | TypeError
  | HostError (msg : string).

(** The reply of one host operation. *)
Inductive reply (A : Type) : Type :=
  | Returns (a : A)
  | Throws (e : error).
Arguments Returns {A} a.
Arguments Throws {A} e.

(** The store shared by the script and the host: the JavaScript arrays
    reachable through references (the host may create them and may update
    them in place), and the host's private world (session, files, ...). *)
Record Store (W : Type) : Type := mkStore {
  arrays : gmap loc (list value);
  world : W
}.
Arguments mkStore {W} arrays world.

(** ** The host surface used by the script *)

Record Host (W : Type) : Type := mkHost {
  (** [builder.OpenFile(url)] *)
  OpenFile : string -> Store W -> reply unit * Store W;
  (** [Api.GetDocument()] *)
  GetDocument : Store W -> reply value * Store W;
  (** [Api.GetActiveSheet()] *)
  GetActiveSheet : Store W -> reply value * Store W;
  (** [d.GetAllComments()] on the host object at [d] *)
  GetAllComments : loc -> Store W -> reply value * Store W;
  (** [c.Delete()] on the host object at [c] *)
  Delete : loc -> Store W -> reply unit * Store W;
  (** [builder.SaveFile(format, name)] *)
  SaveFile : string -> string -> Store W -> reply unit * Store W;
  (** [builder.CloseFile()] *)
  CloseFile : Store W -> reply unit * Store W
}.

(** ** The log of host calls *)

(** A host call as the script issues it: the operation and its arguments;
    for [Delete], the comment object it is invoked on.  [GetAllComments] is
    always invoked on the object the accessor has just returned. *)
Inductive Call : Type :=
  | COpenFile (url : string)
  | CGetDocument
  | CGetActiveSheet
  | CGetAllComments
  | CDelete (c : loc)
  | CSaveFile (format name : string)
  | CCloseFile.

(** A logged call with its result: [None] when it returned, [Some e] when it
    threw [e]. *)
Definition Event : Type := Call * option error.

Definition calls (t : list Event) : list Call := map fst t.

(** The log of calls that all returned. *)
Definition ok (cs : list Call) : list Event := map (fun c => (c, None)) cs.

(** ** The script monad: store, exceptions, call log, fuel *)

Inductive outcome (A : Type) : Type :=
  | Done (a : A)
  | Throw (e : error)
  | OutOfFuel.
Arguments Done {A} a.
Arguments Throw {A} e.
Arguments OutOfFuel {A}.

Definition M (W A : Type) : Type := Store W -> outcome A * Store W * list Event.

Definition ret {W A} (a : A) : M W A := fun s => (Done a, s, []).

Definition throw {W A} (e : error) : M W A := fun s => (Throw e, s, []).

Definition out_of_fuel {W A} : M W A := fun s => (OutOfFuel, s, []).

Definition bind {W A B} (m : M W A) (f : A -> M W B) : M W B :=
  fun s =>
    match m s with
    | (Done a, s1, t1) => let '(o, s2, t2) := f a s1 in (o, s2, t1 ++ t2)
    | (Throw e, s1, t1) => (Throw e, s1, t1)
    | (OutOfFuel, s1, t1) => (OutOfFuel, s1, t1)
    end.

Notation "x <- m ;; k" := (bind m (fun x => k))
  (at level 100, m at next level, right associativity).
Notation "m ;;; k" := (bind m (fun _ => k))
  (at level 100, right associativity).

(** One call into the host: logged, and a host failure becomes a [throw]. *)
Definition host_call {W A} (c : Call) (op : Store W -> reply A * Store W) : M W A :=
  fun s =>
    match op s with
    | (Returns a, s') => (Done a, s', [(c, None)])
    | (Throws e, s') => (Throw e, s', [(c, Some e)])
    end.

Definition res_outcome {W A} (r : outcome A * Store W * list Event) : outcome A :=
  fst (fst r).
Definition res_store {W A} (r : outcome A * Store W * list Event) : Store W :=
  snd (fst r).
Definition res_trace {W A} (r : outcome A * Store W * list Event) : list Event :=
  snd r.

(** ** The script *)

Section Script.
Context {W : Type} (host : Host W).

(** Lines 3-13: [var oDocument; switch (ext) { ... }].  The case labels are
    compared with strict equality, which on strings is equality of the
    character sequences. *)
Definition select_document (ext : string) : M W value :=
  if (ext =? "doc") || (ext =? "docx") then
    host_call CGetDocument (GetDocument host)
  else if (ext =? "xls") || (ext =? "xlsx") then
    host_call CGetActiveSheet (GetActiveSheet host)
  else
    ret VUndefined.

(** [oDocument.GetAllComments()]: a property access on [undefined] throws a
    [TypeError] before anything reaches the host. *)
Definition invoke_GetAllComments (oDocument : value) : M W value :=
  match oDocument with
  | VUndefined => throw TypeError
  | VRef d => host_call CGetAllComments (GetAllComments host d)
  end.

(** [aComments.length], read from the store at the moment of the test:
    [None] stands for [undefined] (the object is not an array). *)
Definition get_length (aComments : value) : M W (option nat) :=
  match aComments with
  | VUndefined => throw TypeError
  | VRef a => fun s => (Done (length <$> arrays s !! a), s, [])
  end.

(** [i < aComments.length]; a comparison with [undefined] is false. *)
Definition lt_length (i : nat) (len : option nat) : bool :=
  match len with
  | Some n => Nat.ltb i n
  | None => false
  end.

(** [aComments[i]], read from the store: [undefined] out of range. *)
Definition get_index (aComments : value) (i : nat) : M W value :=
  match aComments with
  | VUndefined => throw TypeError
  | VRef a => fun s =>
      (Done (default VUndefined (arrays s !! a ≫= (fun vs => vs !! i))), s, [])
  end.

(** [c.Delete()] *)
Definition invoke_Delete (c : value) : M W unit :=
  match c with
  | VUndefined => throw TypeError
  | VRef r => host_call (CDelete r) (Delete host r)
  end.

(** Lines 16-18: [for (var i = 0; i < aComments.length; i++) {
    aComments[i].Delete(); }], from index [i] on.  The length is read again
    before every iteration.  [fuel] bounds the number of tests. *)
Fixpoint delete_loop (fuel : nat) (aComments : value) (i : nat) : M W unit :=
  match fuel with
  | 0 => out_of_fuel
  | S fuel' =>
      len <- get_length aComments ;;
      if lt_length i len then
        c <- get_index aComments i ;;
        invoke_Delete c ;;;
        delete_loop fuel' aComments (S i)
      else
        ret tt
  end.

(** The name of the file written by line 20. *)
Definition output_name (ext : string) : string := "output." +:+ ext.

(** Lines 1-15: open, select, enumerate. *)
Definition fetch (fileUrl ext : string) : M W value :=
  host_call (COpenFile fileUrl) (OpenFile host fileUrl) ;;;
  oDocument <- select_document ext ;;
  invoke_GetAllComments oDocument.

(** Lines 16-21: delete each, save, close. *)
Definition strip_and_save (fuel : nat) (ext : string) (aComments : value) : M W unit :=
  delete_loop fuel aComments 0 ;;;
  host_call (CSaveFile ext (output_name ext)) (SaveFile host ext (output_name ext)) ;;;
  host_call CCloseFile (CloseFile host).

(** The whole script. *)
Definition script (fuel : nat) (fileUrl ext : string) : M W unit :=
  host_call (COpenFile fileUrl) (OpenFile host fileUrl) ;;;
  oDocument <- select_document ext ;;
  aComments <- invoke_GetAllComments oDocument ;;
  delete_loop fuel aComments 0 ;;;
  host_call (CSaveFile ext (output_name ext)) (SaveFile host ext (output_name ext)) ;;;
  host_call CCloseFile (CloseFile host).

Definition run (fuel : nat) (fileUrl ext : string) (s : Store W) :
    outcome unit * Store W * list Event :=
  script fuel fileUrl ext s.

End Script.

(** ** Two sample hosts

    The document-editing runtime is an external collaborator.  The theorems
    below hold for every host, or for every host that meets a stated
    contract; the two hosts here serve to run the script on concrete inputs. *)

(** A document: its content other than comments, and its comments in order
    (each a host object, named by its address). *)
Record Doc : Type := mkDoc {
  body : string;
  comments : list loc
}.

(** The world of the sample hosts: the files, the copy open in the session,
    whether the output location can be written, the next free address. *)
Record World : Type := mkWorld {
  disk : gmap string Doc;
  session : option Doc;
  writable : bool;
  next : loc
}.

Definition with_world {W} (s : Store W) (w : W) : Store W :=
  mkStore (arrays s) w.

Definition with_session (w : World) (o : option Doc) : World :=
  mkWorld (disk w) o (writable w) (next w).

(** The address of the open document or sheet. *)
Definition doc_handle : loc := 0.

Definition remove_comment (c : loc) (d : Doc) : Doc :=
  mkDoc (body d) (filter (fun x => x ≠ c) (comments d)).

Definition sample_OpenFile (url : string) (s : Store World) : reply unit * Store World :=
  match disk (world s) !! url with
  | Some d => (Returns tt, with_world s (with_session (world s) (Some d)))
  | None => (Throws (HostError "cannot open"), s)
  end.

Definition sample_accessor (s : Store World) : reply value * Store World :=
  match session (world s) with
  | Some _ => (Returns (VRef doc_handle), s)
  | None => (Throws (HostError "no open file"), s)
  end.

Definition sample_SaveFile (format name : string) (s : Store World) :
    reply unit * Store World :=
  match session (world s) with
  | Some d =>
      if writable (world s) then
        (Returns tt,
         with_world s (mkWorld (<[name := d]> (disk (world s))) (Some d)
                               (writable (world s)) (next (world s))))
      else (Throws (HostError "cannot write"), s)
  | None => (Throws (HostError "no open file"), s)
  end.

Definition sample_CloseFile (s : Store World) : reply unit * Store World :=
  (Returns tt, with_world s (with_session (world s) None)).

(** A host whose [GetAllComments] returns a fresh array each time; [Delete]
    changes the session's document and leaves every array alone. *)
Definition snapshot_GetAllComments (d : loc) (s : Store World) :
    reply value * Store World :=
  match session (world s) with
  | Some doc =>
      let a := next (world s) in
      (Returns (VRef a),
       mkStore (<[a := map VRef (comments doc)]> (arrays s))
               (mkWorld (disk (world s)) (Some doc) (writable (world s)) (S a)))
  | None => (Throws (HostError "no open file"), s)
  end.

Definition snapshot_Delete (c : loc) (s : Store World) : reply unit * Store World :=
  match session (world s) with
  | Some doc =>
      if bool_decide (c ∈ comments doc) then
        (Returns tt, with_world s (with_session (world s) (Some (remove_comment c doc))))
      else (Throws (HostError "no such comment"), s)
  | None => (Throws (HostError "no open file"), s)
  end.

Definition snapshot_host : Host World :=
  mkHost sample_OpenFile sample_accessor sample_accessor
         snapshot_GetAllComments snapshot_Delete sample_SaveFile sample_CloseFile.

(** A host whose [GetAllComments] returns the array in which the document
    keeps its comments; [Delete] removes the comment from that very array. *)
Definition live_loc : loc := 1.

Definition live_GetAllComments (d : loc) (s : Store World) :
    reply value * Store World :=
  match session (world s) with
  | Some doc =>
      (Returns (VRef live_loc),
       mkStore (<[live_loc := map VRef (comments doc)]> (arrays s)) (world s))
  | None => (Throws (HostError "no open file"), s)
  end.

Definition live_Delete (c : loc) (s : Store World) : reply unit * Store World :=
  match session (world s) with
  | Some doc =>
      if bool_decide (c ∈ comments doc) then
        let doc' := remove_comment c doc in
        (Returns tt,
         mkStore (<[live_loc := map VRef (comments doc')]> (arrays s))
                 (with_session (world s) (Some doc')))
      else (Throws (HostError "no such comment"), s)
  | None => (Throws (HostError "no open file"), s)
  end.

Definition live_host : Host World :=
  mkHost sample_OpenFile sample_accessor sample_accessor
         live_GetAllComments live_Delete sample_SaveFile sample_CloseFile.

(** A store holding one file, nothing open. *)
Definition one_file (url : string) (d : Doc) (can_write : bool) : Store World :=
  mkStore ∅ (mkWorld {[ url := d ]} None can_write 10).

Definition report : Doc := mkDoc "Quarterly report" [21; 22; 23].
Definition budget : Doc := mkDoc "A1=SUM(B1:B9)" [31; 32].
Definition minutes : Doc := mkDoc "Minutes" [41; 42; 43; 44].

(** The comments on which a log issues [Delete], in order. *)
Definition delete_target (c : Call) : option loc :=
  match c with
  | CDelete d => Some d
  | _ => None
  end.

Definition deletions (t : list Event) : list loc :=
  omap delete_target (calls t).

(** Whether a logged call returned. *)
Definition returned (ev : Event) : bool :=
  match snd ev with
  | None => true
  | Some _ => false
  end.

(** ** The extensions the switch recognises *)

Definition supported : list string := ["doc"; "docx"; "xls"; "xlsx"].

(** The accessor call that [select_document] issues for [ext], if any. *)
Definition accessor_call (ext : string) : list Call :=
  if (ext =? "doc") || (ext =? "docx") then [CGetDocument]
  else if (ext =? "xls") || (ext =? "xlsx") then [CGetActiveSheet]
  else [].

Definition is_accessor (c : Call) : bool :=
  match c with
  | CGetDocument | CGetActiveSheet => true
  | _ => false
  end.

Definition accessor_calls (t : list Event) : list Call :=
  List.filter is_accessor (calls t).

Definition is_save (c : Call) : bool :=
  match c with
  | CSaveFile _ _ => true
  | _ => false
  end.

Definition save_calls (t : list Event) : list Call :=
  List.filter is_save (calls t).

(** The calls up to and including the enumeration of the comments. *)
Definition head_calls (fileUrl ext : string) : list Call :=
  COpenFile fileUrl :: accessor_call ext ++ [CGetAllComments].

(** The calls of a complete run that deletes the comments [ds]. *)
Definition plan (fileUrl ext : string) (ds : list loc) : list Call :=
  head_calls fileUrl ext ++ map CDelete ds ++
  [CSaveFile ext (output_name ext); CCloseFile].

(** The error of a reply, as logged. *)
Definition reply_error {A} (r : reply A) : option error :=
  match r with
  | Returns _ => None
  | Throws e => Some e
  end.

(** ASCII lower-casing, to speak of the casing variants of an extension. *)
Definition lower_ascii (c : ascii) : ascii :=
  let n := nat_of_ascii c in
  if (65 <=? n)%nat && (n <=? 90)%nat then ascii_of_nat (n + 32) else c.

Fixpoint lower (s : string) : string :=
  match s with
  | EmptyString => EmptyString
  | String c s' => String (lower_ascii c) (lower s')
  end.

(** ** The possible runs

    Every run of the script has one of the forms below: it stops at the first
    call that throws, at a [TypeError] of the engine, or after [CloseFile]. *)

(** Lines 16-21, after the comments were enumerated. *)
Inductive tail_form (ext : string) (fuel : nat) : outcome unit -> list Event -> Prop :=
  | T_undefined ds :
      tail_form ext fuel (Throw TypeError) (ok (map CDelete ds))
  | T_delete_fails ds c e :
      tail_form ext fuel (Throw e) (ok (map CDelete ds) ++ [(CDelete c, Some e)])
  | T_fuel ds :
      length ds = fuel ->
      tail_form ext fuel OutOfFuel (ok (map CDelete ds))
  | T_save_fails ds e :
      tail_form ext fuel (Throw e)
        (ok (map CDelete ds) ++ [(CSaveFile ext (output_name ext), Some e)])
  | T_close_fails ds e :
      tail_form ext fuel (Throw e)
        (ok (map CDelete ds ++ [CSaveFile ext (output_name ext)]) ++ [(CCloseFile, Some e)])
  | T_done ds :
      tail_form ext fuel (Done tt)
        (ok (map CDelete ds ++ [CSaveFile ext (output_name ext); CCloseFile])).

Inductive run_form (fileUrl ext : string) (fuel : nat) :
    outcome unit -> list Event -> Prop :=
  | F_open_fails e :
      run_form fileUrl ext fuel (Throw e) [(COpenFile fileUrl, Some e)]
  | F_accessor_fails c e :
      accessor_call ext = [c] ->
      run_form fileUrl ext fuel (Throw e) [(COpenFile fileUrl, None); (c, Some e)]
  | F_no_document :
      run_form fileUrl ext fuel (Throw TypeError) (ok (COpenFile fileUrl :: accessor_call ext))
  | F_enumerate_fails c e :
      accessor_call ext = [c] ->
      run_form fileUrl ext fuel (Throw e)
        (ok (COpenFile fileUrl :: accessor_call ext) ++ [(CGetAllComments, Some e)])
  | F_tail c o t :
      accessor_call ext = [c] ->
      tail_form ext fuel o t ->
      run_form fileUrl ext fuel o (ok (head_calls fileUrl ext) ++ t).

(** ** Runs over a snapshot

    An array is a snapshot when the host's [Delete] leaves it as it is. *)

Definition stable {W} (host : Host W) (a : loc) : Prop :=
  forall c s s', Delete host c s = (Returns tt, s') -> arrays s' !! a = arrays s !! a.

(** The array returned by the enumeration step of a run, if it gets there. *)
Definition snapshot_of {W} (r : outcome value * Store W * list Event) : option (list value) :=
  match res_outcome r with
  | Done (VRef a) => arrays (res_store r) !! a
  | _ => None
  end.

(** The fuel allows one test of the loop condition, and if the run gets an
    array from the enumeration step, the array is a snapshot and shorter than
    the fuel. *)
Definition snapshot_within {W} (host : Host W) (fuel : nat) (fileUrl ext : string)
    (s : Store W) : Prop :=
  0 < fuel /\
  forall a s3 t0,
    fetch host fileUrl ext s = (Done (VRef a), s3, t0) ->
    stable host a /\ length (default [] (arrays s3 !! a)) < fuel.


(** ** Host contracts

    What the claims about files and documents assume of the host.  [files]
    reads the host's files off its world, [opened] the copy of the document
    that is open in the session. *)

(** Only a [SaveFile] that returns changes the files. *)
Record only_save_writes {W} (files : W -> gmap string Doc) (h : Host W) : Prop := {
  osw_open : forall url s r s',
    OpenFile h url s = (r, s') -> files (world s') = files (world s);
  osw_document : forall s r s',
    GetDocument h s = (r, s') -> files (world s') = files (world s);
  osw_sheet : forall s r s',
    GetActiveSheet h s = (r, s') -> files (world s') = files (world s);
  osw_enumerate : forall d s r s',
    GetAllComments h d s = (r, s') -> files (world s') = files (world s);
  osw_delete : forall c s r s',
    Delete h c s = (r, s') -> files (world s') = files (world s);
  osw_save_fails : forall f n s e s',
    SaveFile h f n s = (Throws e, s') -> files (world s') = files (world s);
  osw_close : forall s r s',
    CloseFile h s = (r, s') -> files (world s') = files (world s)
}.

(** The session works on a copy of the file: [OpenFile] loads it, the
    accessors return an object and leave the copy alone, [GetAllComments]
    returns an array of its comments in order, [Delete] removes one comment
    from the copy, [SaveFile] writes the copy under the given name.  Whether
    [Delete] also changes the array that [GetAllComments] returned is left
    open here; see [stable] and [returns_snapshot]. *)
Record edits_session_copy {W} (files : W -> gmap string Doc)
    (opened : W -> option Doc) (h : Host W) : Prop := {
  esc_open : forall url s s',
    OpenFile h url s = (Returns tt, s') ->
    opened (world s') = files (world s) !! url /\ is_Some (files (world s) !! url);
  esc_document : forall s v s',
    GetDocument h s = (Returns v, s') ->
    opened (world s') = opened (world s) /\ exists d, v = VRef d;
  esc_sheet : forall s v s',
    GetActiveSheet h s = (Returns v, s') ->
    opened (world s') = opened (world s) /\ exists d, v = VRef d;
  esc_enumerate : forall d s v s',
    GetAllComments h d s = (Returns v, s') ->
    opened (world s') = opened (world s) /\
    exists a doc, v = VRef a /\ opened (world s) = Some doc /\
                  arrays s' !! a = Some (map VRef (comments doc));
  esc_delete : forall c s s',
    Delete h c s = (Returns tt, s') ->
    opened (world s') = remove_comment c <$> opened (world s);
  esc_save : forall f n s s',
    SaveFile h f n s = (Returns tt, s') ->
    exists doc, opened (world s) = Some doc /\
                files (world s') = <[n := doc]> (files (world s))
}.

(** The array that this run gets from [GetAllComments], if it gets one, is
    a snapshot: [Delete] leaves it as it is. *)
Definition returns_snapshot {W} (host : Host W) (fileUrl ext : string)
    (s : Store W) : Prop :=
  forall a s3 t0,
    fetch host fileUrl ext s = (Done (VRef a), s3, t0) -> stable host a.

(** ** The host's own record of what it received

    The log of a run is written by the script.  To tie it to what the host
    is really asked to do, any host can be made to keep a journal: each of
    its operations, when applied, appends its own name and the arguments it
    was given. *)

Definition journal {W} (s : Store (W * list Call)) : list Call := snd (world s).

Definition without_journal {W} (s : Store (W * list Call)) : Store W :=
  mkStore (arrays s) (fst (world s)).

Definition with_journal {W} (s : Store W) (j : list Call) : Store (W * list Call) :=
  mkStore (arrays s) (world s, j).

Definition journal_op {W A} (c : Call) (op : Store W -> reply A * Store W)
    (s : Store (W * list Call)) : reply A * Store (W * list Call) :=
  (fst (op (without_journal s)),
   with_journal (snd (op (without_journal s))) (journal s ++ [c])).

Definition journaled {W} (h : Host W) : Host (W * list Call) :=
  mkHost (fun url => journal_op (COpenFile url) (OpenFile h url))
         (journal_op CGetDocument (GetDocument h))
         (journal_op CGetActiveSheet (GetActiveSheet h))
         (fun d => journal_op CGetAllComments (GetAllComments h d))
         (fun c => journal_op (CDelete c) (Delete h c))
         (fun f n => journal_op (CSaveFile f n) (SaveFile h f n))
         (journal_op CCloseFile (CloseFile h)).

(** The operations the host is asked to perform in a run, in order, as the
    host itself records them. *)
Definition received {W} (host : Host W) (fuel : nat) (fileUrl ext : string)
    (s : Store W) : list Call :=
  journal (res_store (run (journaled host) fuel fileUrl ext (with_journal s []))).

(** A computation against the journaled host does what the same computation
    does against the host, and the journal grows by the calls it logs. *)
Definition simulates {W A} (m : M (W * list Call) A) (m0 : M W A) : Prop :=
  forall s,
    m0 (without_journal s) =
      (res_outcome (m s), without_journal (res_store (m s)), res_trace (m s)) /\
    journal (res_store (m s)) = journal s ++ calls (res_trace (m s)).

(** The run took the calls [p] to their end with every call returning, or
    stopped at the first of them that threw. *)
Definition stops_in (p : list Call) (o : outcome unit) (t : list Event) : Prop :=
  (o = Done tt /\ t = ok p) \/
  (exists n c e, o = Throw e /\ p !! n = Some c /\
     t = ok (take n p) ++ [(c, Some e)]).

(** Two logs agree, call by call and as far as both go, on whether the call
    returned or threw.  Nothing is said of their lengths. *)
Definition answered_alike (t1 t2 : list Event) : Prop :=
  forall k e1 e2, t1 !! k = Some e1 -> t2 !! k = Some e2 ->
    returned e1 = returned e2.

(** Every call of a log returned. *)
Definition all_returned (t : list Event) : bool := forallb returned t.

(** A host whose [Delete] appends an entry to the array at [live_loc], which
    is the array its [GetAllComments] returns. *)
Definition growing_host : Host unit :=
  mkHost (fun _ s => (Returns tt, s))
         (fun s => (Returns (VRef doc_handle), s))
         (fun s => (Returns (VRef doc_handle), s))
         (fun _ s => (Returns (VRef live_loc), s))
         (fun c s =>
            (Returns tt,
             mkStore (alter (fun vs => vs ++ [VRef c]) live_loc (arrays s)) (world s)))
         (fun _ _ s => (Returns tt, s))
         (fun s => (Returns tt, s)).

(** ** Vocabulary for the further properties *)







(** A host that does nothing: every operation returns at once and leaves the
    store alone; [GetAllComments] hands back the value [v]. *)
Definition canned_host (v : value) : Host unit :=
  mkHost (fun _ s => (Returns tt, s))
         (fun s => (Returns (VRef doc_handle), s))
         (fun s => (Returns (VRef doc_handle), s))
         (fun _ s => (Returns v, s))
         (fun _ s => (Returns tt, s))
         (fun _ _ s => (Returns tt, s))
         (fun s => (Returns tt, s)).

(** * Lemmas *)

(** ** Facts about the dispatch *)

Lemma accessor_call_supported ext :
  In ext supported ->
  (ext = "doc" \/ ext = "docx") /\ accessor_call ext = [CGetDocument] \/
  (ext = "xls" \/ ext = "xlsx") /\ accessor_call ext = [CGetActiveSheet].
Proof.
  unfold supported. simpl.
  intros [<- | [<- | [<- | [<- | []]]]]; vm_compute; auto.
Qed.

Lemma accessor_call_unsupported ext :
  ~ In ext supported -> accessor_call ext = [].
Proof.
  unfold supported, accessor_call. simpl. intros H.
  destruct (String.eqb_spec ext "doc") as [->|?]; [exfalso; apply H; auto|].
  destruct (String.eqb_spec ext "docx") as [->|?]; [exfalso; apply H; auto|].
  destruct (String.eqb_spec ext "xls") as [->|?]; [exfalso; apply H; auto|].
  destruct (String.eqb_spec ext "xlsx") as [->|?]; [exfalso; apply H; auto 6|].
  reflexivity.
Qed.


Lemma ok_app (xs ys : list Call) : ok (xs ++ ys) = ok xs ++ ok ys.
Proof. apply map_app. Qed.

Lemma calls_ok (xs : list Call) : calls (ok xs) = xs.
Proof.
  unfold calls, ok. rewrite map_map. simpl. apply map_id.
Qed.

Lemma calls_app (t u : list Event) : calls (t ++ u) = calls t ++ calls u.
Proof. apply map_app. Qed.

Section General.
Context {W : Type} (host : Host W).

(** The dispatch, by cases on [accessor_call]. *)
Lemma select_document_none ext s :
  accessor_call ext = [] ->
  select_document host ext s = (Done VUndefined, s, []).
Proof.
  unfold accessor_call, select_document.
  destruct ((ext =? "doc") || (ext =? "docx")); [discriminate|].
  destruct ((ext =? "xls") || (ext =? "xlsx")); [discriminate|].
  reflexivity.
Qed.

Lemma select_document_some ext c s :
  accessor_call ext = [c] ->
  exists op : Store W -> reply value * Store W,
    (op = GetDocument host /\ c = CGetDocument \/
     op = GetActiveSheet host /\ c = CGetActiveSheet) /\
    select_document host ext s = host_call c op s.
Proof.
  unfold accessor_call, select_document.
  destruct ((ext =? "doc") || (ext =? "docx")).
  - intros [= <-]. exists (GetDocument host). auto.
  - destruct ((ext =? "xls") || (ext =? "xlsx")); [|discriminate].
    intros [= <-]. exists (GetActiveSheet host). auto.
Qed.

(** The events of the loop are [Delete] calls; only the last may fail. *)
Lemma delete_loop_events fuel a i s :
  exists ds,
    match delete_loop host fuel a i s with
    | (Done _, _, t) => t = ok (map CDelete ds)
    | (OutOfFuel, _, t) => t = ok (map CDelete ds) /\ length ds = fuel
    | (Throw e, _, t) =>
        e = TypeError /\ t = ok (map CDelete ds) \/
        exists c, t = ok (map CDelete ds) ++ [(CDelete c, Some e)]
    end.
Proof.
  revert i s. induction fuel as [|fuel IH]; intros i s.
  - exists []. simpl. auto.
  - destruct a as [|a].
    { exists []. simpl. auto. }
    cbn [delete_loop]. unfold bind at 1. cbn [get_length].
    destruct (lt_length i (length <$> arrays s !! a)).
    2:{ exists []. reflexivity. }
    unfold bind at 1. cbn [get_index].
    destruct (default VUndefined (arrays s !! a ≫= (fun vs => vs !! i))) as [|c].
    { exists []. simpl. auto. }
    unfold bind. cbn [invoke_Delete]. unfold host_call.
    destruct (Delete host c s) as [[[]|e] s1].
    + destruct (IH (S i) s1) as [ds Hds].
      destruct (delete_loop host fuel (VRef a) (S i) s1) as [[[[]|e|] s2] t].
      * exists (c :: ds). subst t. reflexivity.
      * exists (c :: ds). destruct Hds as [[-> ->]|[c' ->]]; [left|right]; eauto.
      * exists (c :: ds). destruct Hds as [-> <-]. auto.
    + exists []. right. exists c. reflexivity.
Qed.

(** The forms of lines 16-21. *)
Lemma strip_and_save_form fuel ext a s o s' t :
  strip_and_save host fuel ext a s = (o, s', t) ->
  tail_form ext fuel o t.
Proof.
  unfold strip_and_save, bind, host_call.
  destruct (delete_loop_events fuel a 0 s) as [ds Hds].
  destruct (delete_loop host fuel a 0 s) as [[[[]|e|] s1] t1].
  - subst t1.
    destruct (SaveFile host ext (output_name ext) s1) as [[[]|e] s2].
    + destruct (CloseFile host s2) as [[[]|e] s3]; intros [= <- <- <-].
      * change (tail_form ext fuel (Done tt)
                  (ok (map CDelete ds) ++
                   ok [CSaveFile ext (output_name ext); CCloseFile])).
        rewrite <- ok_app. apply T_done.
      * change (tail_form ext fuel (Throw e)
                  (ok (map CDelete ds) ++
                   ok [CSaveFile ext (output_name ext)] ++ [(CCloseFile, Some e)])).
        rewrite app_assoc, <- ok_app. apply T_close_fails.
    + intros [= <- <- <-]. apply T_save_fails.
  - intros [= <- <- <-]. destruct Hds as [[-> ->]|[c ->]]; constructor.
  - intros [= <- <- <-]. destruct Hds as [-> Hl]. now constructor.
Qed.

(** Sequencing is associative, so the script is [fetch] followed by
    [strip_and_save]. *)
Lemma bind_assoc {A B C} (m : M W A) (f : A -> M W B) (g : B -> M W C) s :
  bind (bind m f) g s = bind m (fun x => bind (f x) g) s.
Proof.
  unfold bind.
  destruct (m s) as [[[a|e|] s1] t1]; try reflexivity.
  destruct (f a s1) as [[[b|e|] s2] t2]; try reflexivity.
  destruct (g b s2) as [[o s3] t3]. now rewrite app_assoc.
Qed.

Lemma bind_ext {A B} (m : M W A) (f g : A -> M W B) s :
  (forall a s1, f a s1 = g a s1) -> bind m f s = bind m g s.
Proof.
  intros H. unfold bind.
  destruct (m s) as [[[a|e|] s1] t1]; try reflexivity. now rewrite H.
Qed.

Lemma run_fetch fuel fileUrl ext s :
  run host fuel fileUrl ext s =
  bind (fetch host fileUrl ext) (strip_and_save host fuel ext) s.
Proof.
  unfold run, script, fetch, strip_and_save.
  rewrite bind_assoc. apply bind_ext. intros _ s1.
  now rewrite bind_assoc.
Qed.

Lemma run_after_fetch fuel fileUrl ext s v s3 t0 :
  fetch host fileUrl ext s = (Done v, s3, t0) ->
  run host fuel fileUrl ext s =
  (res_outcome (strip_and_save host fuel ext v s3),
   res_store (strip_and_save host fuel ext v s3),
   t0 ++ res_trace (strip_and_save host fuel ext v s3)).
Proof.
  intros H. rewrite run_fetch. unfold bind at 1. rewrite H.
  now destruct (strip_and_save host fuel ext v s3) as [[o s'] t].
Qed.

Lemma run_fetch_throws fuel fileUrl ext s e s3 t0 :
  fetch host fileUrl ext s = (Throw e, s3, t0) ->
  run host fuel fileUrl ext s = (Throw e, s3, t0).
Proof.
  intros H. rewrite run_fetch. unfold bind at 1. now rewrite H.
Qed.

(** The forms of lines 1-15. *)
Lemma fetch_form fuel fileUrl ext s o s3 t0 :
  fetch host fileUrl ext s = (o, s3, t0) ->
  match o with
  | Done v => (exists c, accessor_call ext = [c]) /\ t0 = ok (head_calls fileUrl ext)
  | Throw e => run_form fileUrl ext fuel (Throw e) t0
  | OutOfFuel => False
  end.
Proof.
  unfold fetch, bind at 1, host_call at 1.
  destruct (OpenFile host fileUrl s) as [[[]|e] s1].
  2:{ intros [= <- <- <-]. constructor. }
  unfold bind.
  destruct (accessor_call ext) as [|c [|c' l]] eqn:Hacc.
  - rewrite select_document_none by assumption. cbn.
    intros [= <- <- <-]. pose proof (F_no_document fileUrl ext fuel) as F.
    now rewrite Hacc in F.
  - destruct (select_document_some ext s1 Hacc) as (op & _ & ->).
    unfold host_call.
    destruct (op s1) as [[[|d]|e] s2]; cbn.
    + intros [= <- <- <-].
      pose proof (F_no_document fileUrl ext fuel) as F. now rewrite Hacc in F.
    + unfold host_call.
      destruct (GetAllComments host d s2) as [[v|e] s2']; cbn; intros [= <- <- <-].
      * split; [eauto|]. unfold head_calls. now rewrite Hacc.
      * pose proof (@F_enumerate_fails fileUrl ext fuel c e Hacc) as F.
        now rewrite Hacc in F.
    + intros [= <- <- <-]. now apply F_accessor_fails.
  - exfalso. revert Hacc. unfold accessor_call.
    destruct ((ext =? "doc") || (ext =? "docx")); [discriminate|].
    destruct ((ext =? "xls") || (ext =? "xlsx")); discriminate.
Qed.

(** Every run has one of the forms. *)
Lemma run_has_form fuel fileUrl ext s o s' t :
  run host fuel fileUrl ext s = (o, s', t) ->
  run_form fileUrl ext fuel o t.
Proof.
  destruct (fetch host fileUrl ext s) as [[[v|e|] s3] t0] eqn:Hf.
  - rewrite (run_after_fetch fuel _ _ _ Hf).
    destruct (strip_and_save host fuel ext v s3) as [[o1 s1] t1] eqn:Hs.
    cbn. intros [= <- <- <-].
    destruct (fetch_form fuel _ _ _ Hf) as [[c Hc] ->].
    eapply F_tail; eauto using strip_and_save_form.
  - rewrite (run_fetch_throws fuel _ _ _ Hf). intros [= <- <- <-].
    apply (fetch_form fuel _ _ _ Hf).
  - destruct (fetch_form fuel _ _ _ Hf).
Qed.

End General.

(** ** The loop over a snapshot *)

Section Snapshot.
Context {W : Type} (host : Host W).

(** One turn of the loop, by cases on what the store holds. *)
Lemma delete_loop_exit fuel a i s :
  lt_length i (length <$> arrays s !! a) = false ->
  delete_loop host (S fuel) (VRef a) i s = (Done tt, s, []).
Proof.
  intros H. cbn [delete_loop]. unfold bind, get_length. now rewrite H.
Qed.

Lemma delete_loop_turn fuel a i s vs c :
  arrays s !! a = Some vs ->
  vs !! i = Some (VRef c) ->
  delete_loop host (S fuel) (VRef a) i s =
  match Delete host c s with
  | (Returns _, s1) =>
      (res_outcome (delete_loop host fuel (VRef a) (S i) s1),
       res_store (delete_loop host fuel (VRef a) (S i) s1),
       (CDelete c, None) :: res_trace (delete_loop host fuel (VRef a) (S i) s1))
  | (Throws e, s1) => (Throw e, s1, [(CDelete c, Some e)])
  end.
Proof.
  intros Ha Hc. cbn [delete_loop].
  unfold bind, get_length, get_index. rewrite Ha. cbn -[Nat.ltb].
  assert (i < length vs) as Hlt by (eapply lookup_lt_Some; eauto).
  apply Nat.ltb_lt in Hlt. rewrite Hlt, Ha. cbn. rewrite Hc. cbn.
  unfold host_call.
  destruct (Delete host c s) as [[[]|e] s1]; [|reflexivity].
  now destruct (delete_loop host fuel (VRef a) (S i) s1) as [[o1 s2] t1].
Qed.

Lemma delete_loop_hole fuel a i s vs :
  arrays s !! a = Some vs ->
  vs !! i = Some VUndefined ->
  delete_loop host (S fuel) (VRef a) i s = (Throw TypeError, s, []).
Proof.
  intros Ha Hc. cbn [delete_loop].
  unfold bind, get_length, get_index. rewrite Ha. cbn -[Nat.ltb].
  assert (i < length vs) as Hlt by (eapply lookup_lt_Some; eauto).
  apply Nat.ltb_lt in Hlt. rewrite Hlt, Ha. cbn. now rewrite Hc.
Qed.

(** The loop over an array that stays as it is, with a store invariant
    [P j] holding before the [j]-th deletion. *)
Lemma delete_loop_inv (P : nat -> Store W -> Prop) a cs fuel :
  (forall j c s1 s2, cs !! j = Some c -> P j s1 ->
     Delete host c s1 = (Returns tt, s2) -> P (S j) s2) ->
  (forall j s1, P j s1 -> arrays s1 !! a = Some (map VRef cs)) ->
  forall i s o s' t,
    P i s -> i <= length cs ->
    delete_loop host fuel (VRef a) i s = (o, s', t) ->
    (o = Done tt /\ t = ok (map CDelete (drop i cs)) /\ P (length cs) s') \/
    (exists k c e s1, o = Throw e /\ cs !! (i + k) = Some c /\
       P (i + k) s1 /\ Delete host c s1 = (Throws e, s') /\
       t = ok (map CDelete (take k (drop i cs))) ++ [(CDelete c, Some e)]) \/
    (o = OutOfFuel /\ fuel + i <= length cs /\ P (fuel + i) s' /\
       t = ok (map CDelete (take fuel (drop i cs)))).
Proof.
  intros Hstep Harr.
  induction fuel as [|fuel IH]; intros i s o s' t HP Hi.
  - cbn. intros [= <- <- <-]. right; right. split; [reflexivity|]. split; [lia|].
    split; [assumption|]. reflexivity.
  - pose proof (Harr _ _ HP) as Ha.
    destruct (Nat.ltb_spec i (length cs)) as [Hlt|Hge].
    2:{ rewrite delete_loop_exit.
        2:{ rewrite Ha. cbn -[Nat.ltb]. rewrite length_map. now apply Nat.ltb_ge. }
        intros [= <- <- <-]. left. split; [reflexivity|].
        assert (i = length cs) as -> by lia.
        rewrite drop_all. auto. }
    destruct (lookup_lt_is_Some_2 cs i Hlt) as [c Hc].
    rewrite (@delete_loop_turn fuel a i s (map VRef cs) c Ha)
      by (now rewrite list_lookup_fmap, Hc).
    rewrite (drop_S _ _ _ Hc).
    destruct (Delete host c s) as [[[]|e] s1] eqn:HD.
    + specialize (Hstep _ _ _ _ Hc HP HD).
      destruct (delete_loop host fuel (VRef a) (S i) s1) as [[o1 s2] t1] eqn:HL.
      cbn. intros [= <- <- <-].
      destruct (IH _ _ _ _ _ Hstep Hlt HL)
        as [(-> & -> & HP') |
            [(k & c' & e & s1' & -> & Hk & HPk & HDk & ->) | (-> & Hf & HPf & ->)]].
      * left. auto.
      * right; left. exists (S k), c', e, s1'.
        replace (i + S k) with (S i + k) by lia. auto.
      * right; right. split; [reflexivity|]. split; [lia|].
        split; [now replace (S (fuel + i)) with (fuel + S i) by lia|]. reflexivity.
    + intros [= <- <- <-]. right; left. exists 0, c, e, s.
      rewrite Nat.add_0_r. auto.
Qed.

(** The loop over a snapshot holding the comments [cs]. *)
Lemma delete_loop_snapshot a cs fuel i s o s' t :
  stable host a ->
  arrays s !! a = Some (map VRef cs) ->
  i <= length cs ->
  delete_loop host fuel (VRef a) i s = (o, s', t) ->
  (o = Done tt /\ t = ok (map CDelete (drop i cs)) /\
     arrays s' !! a = Some (map VRef cs)) \/
  (exists k c e, o = Throw e /\ cs !! (i + k) = Some c /\
     t = ok (map CDelete (take k (drop i cs))) ++ [(CDelete c, Some e)]) \/
  (o = OutOfFuel /\ fuel + i <= length cs /\
     t = ok (map CDelete (take fuel (drop i cs)))).
Proof.
  intros Hst Ha Hi HL.
  destruct (@delete_loop_inv
              (fun _ s1 => arrays s1 !! a = Some (map VRef cs)) a cs fuel)
    with (i := i) (s := s) (o := o) (s' := s') (t := t)
    as [H | [(k & c & e & s1 & H) | (H1 & H2 & _ & H3)]]; auto.
  - intros j c s1 s2 _ H1 HD. now rewrite (Hst _ _ _ HD).
  - right; left. exists k, c, e. tauto.
Qed.

(** Over an array that stays as it is, the loop ends within
    [length + 1] tests, whatever the array holds. *)
Lemma delete_loop_terminates a fuel :
  stable host a ->
  forall i s,
    length (default [] (arrays s !! a)) - i < fuel ->
    res_outcome (delete_loop host fuel (VRef a) i s) <> OutOfFuel.
Proof.
  intros Hst. induction fuel as [|fuel IH]; intros i s Hlen; [lia|].
  destruct (lt_length i (length <$> arrays s !! a)) eqn:Hlt.
  2:{ now rewrite delete_loop_exit. }
  destruct (arrays s !! a) as [vs|] eqn:Ha; [|discriminate].
  cbn -[Nat.ltb] in Hlt, Hlen. apply Nat.ltb_lt in Hlt.
  destruct (lookup_lt_is_Some_2 vs i Hlt) as [[|c] Hc].
  { now rewrite (@delete_loop_hole fuel a i s vs Ha Hc). }
  rewrite (@delete_loop_turn fuel a i s vs c Ha Hc).
  destruct (Delete host c s) as [[[]|e] s1] eqn:HD; [|discriminate].
  cbn. apply IH. rewrite (Hst _ _ _ HD), Ha. cbn. lia.
Qed.

End Snapshot.

Section Runs.
Context {W : Type} (host : Host W).



(** A run whose snapshot fits in the fuel does not run out of it. *)
Lemma run_terminates fuel fileUrl ext s :
  snapshot_within host fuel fileUrl ext s ->
  res_outcome (run host fuel fileUrl ext s) <> OutOfFuel.
Proof.
  intros [Hpos Hw].
  destruct (fetch host fileUrl ext s) as [[[v|e|] s3] t0] eqn:Hf.
  - rewrite (run_after_fetch host fuel _ _ _ Hf). cbn.
    unfold strip_and_save, bind, host_call.
    destruct v as [|a].
    { destruct fuel; [lia|]. cbn. discriminate. }
    destruct (Hw _ _ _ eq_refl) as [Hst Hlen].
    pose proof (@delete_loop_terminates W host a fuel Hst 0 s3) as Ht.
    destruct (delete_loop host fuel (VRef a) 0 s3) as [[[[]|e|] s4] tl].
    + destruct (SaveFile host ext (output_name ext) s4) as [[[]|e] s5];
        [|discriminate].
      destruct (CloseFile host s5) as [[[]|e] s6]; discriminate.
    + discriminate.
    + exfalso. apply Ht; [lia|reflexivity].
  - rewrite (run_fetch_throws host fuel _ _ _ Hf). discriminate.
  - destruct (fetch_form host 0 _ _ _ Hf).
Qed.

End Runs.

(** ** The sample host meets the contracts *)

Lemma snapshot_host_only_save_writes : only_save_writes disk snapshot_host.
Proof.
  split; cbn.
  - intros url s r s'. unfold sample_OpenFile.
    destruct (disk (world s) !! url); now intros [= <- <-].
  - intros s r s'. unfold sample_accessor.
    destruct (session (world s)); now intros [= <- <-].
  - intros s r s'. unfold sample_accessor.
    destruct (session (world s)); now intros [= <- <-].
  - intros d s r s'. unfold snapshot_GetAllComments.
    destruct (session (world s)); now intros [= <- <-].
  - intros c s r s'. unfold snapshot_Delete.
    destruct (session (world s)) as [doc|]; [|now intros [= <- <-]].
    destruct (bool_decide (c ∈ comments doc)); now intros [= <- <-].
  - intros f n s e s'. unfold sample_SaveFile.
    destruct (session (world s)); [|now intros [= <- <-]].
    destruct (writable (world s)); [discriminate|now intros [= <- <-]].
  - intros s r s'. unfold sample_CloseFile. now intros [= <- <-].
Qed.

Lemma snapshot_host_edits_session_copy :
  edits_session_copy disk session snapshot_host.
Proof.
  split; cbn.
  - intros url s s'. unfold sample_OpenFile.
    destruct (disk (world s) !! url) as [d|] eqn:Hd; [|discriminate].
    intros [= <-]. cbn. eauto.
  - intros s v s'. unfold sample_accessor.
    destruct (session (world s)) eqn:Hs; [|discriminate]. intros [= <- <-]. eauto.
  - intros s v s'. unfold sample_accessor.
    destruct (session (world s)) eqn:Hs; [|discriminate]. intros [= <- <-]. eauto.
  - intros d s v s'. unfold snapshot_GetAllComments.
    destruct (session (world s)) as [doc|] eqn:Hs; [|discriminate].
    intros [= <- <-]. cbn. split; [reflexivity|].
    exists (next (world s)), doc. rewrite lookup_insert_eq. auto.
  - intros c s s'. unfold snapshot_Delete.
    destruct (session (world s)) as [doc|] eqn:Hs; [|discriminate].
    destruct (bool_decide (c ∈ comments doc)); [|discriminate].
    intros [= <-]. cbn. auto.
  - intros f n s s'. unfold sample_SaveFile.
    destruct (session (world s)) as [doc|] eqn:Hs; [|discriminate].
    destruct (writable (world s)); [|discriminate].
    intros [= <-]. exists doc. auto.
Qed.

Lemma snapshot_host_stable a : stable snapshot_host a.
Proof.
  intros c s s'. cbn. unfold snapshot_Delete.
  destruct (session (world s)) as [doc|]; [|discriminate].
  destruct (bool_decide (c ∈ comments doc)); [|discriminate].
  now intros [= <-].
Qed.

Section Files.
Context {W : Type} (host : Host W) (files : W -> gmap string Doc).
Hypothesis Hfiles : only_save_writes files host.


Lemma fetch_keeps_files fileUrl ext s :
  files (world (res_store (fetch host fileUrl ext s))) = files (world s).
Proof.
  unfold fetch, bind at 1, host_call at 1.
  destruct (OpenFile host fileUrl s) as [[[]|e] s1] eqn:HO;
    [|cbn; eapply osw_open; eauto].
  rewrite <- (osw_open Hfiles _ _ HO). unfold bind.
  destruct (accessor_call ext) as [|c l] eqn:Hacc.
  { now rewrite select_document_none by assumption. }
  assert (l = []) as ->.
  { revert Hacc. unfold accessor_call.
    destruct ((ext =? "doc") || (ext =? "docx")); [congruence|].
    destruct ((ext =? "xls") || (ext =? "xlsx")); congruence. }
  destruct (select_document_some host ext s1 Hacc) as (op & Hop & ->).
  unfold host_call.
  assert (forall r s2, op s1 = (r, s2) -> files (world s2) = files (world s1)) as Hk.
  { destruct Hop as [[-> _]|[-> _]]; intros r s2 H.
    - eapply osw_document; eauto.
    - eapply osw_sheet; eauto. }
  revert Hk. destruct (op s1) as [[[|d]|e] s2]; intros Hk;
    specialize (Hk _ _ eq_refl); cbn; try assumption.
  unfold host_call.
  destruct (GetAllComments host d s2) as [[v'|e] s2'] eqn:Hg; cbn;
    rewrite <- Hk; eapply osw_enumerate; eauto.
Qed.


End Files.

(** ** What the forms say about the log *)

Lemma accessor_call_cases ext :
  accessor_call ext = [] \/ accessor_call ext = [CGetDocument] \/
  accessor_call ext = [CGetActiveSheet].
Proof.
  unfold accessor_call.
  destruct ((ext =? "doc") || (ext =? "docx")); auto.
  destruct ((ext =? "xls") || (ext =? "xlsx")); auto.
Qed.



Lemma filter_deletes (f : Call -> bool) ds :
  (forall d, f (CDelete d) = false) -> List.filter f (map CDelete ds) = [].
Proof.
  intros H. induction ds as [|d ds IH]; [reflexivity|].
  cbn. now rewrite H.
Qed.





Lemma tail_form_filter (f : Call -> bool) ext fuel o t :
  (forall d, f (CDelete d) = false) ->
  f CCloseFile = false ->
  tail_form ext fuel o t ->
  (List.filter f (calls t) = [] \/
   List.filter f (calls t) = List.filter f [CSaveFile ext (output_name ext)]) /\
  (o = Done tt ->
   List.filter f (calls t) = List.filter f [CSaveFile ext (output_name ext)]).
Proof.
  intros Hd Hc [ds | ds c e | ds _ | ds e | ds e | ds];
    rewrite ?calls_app, ?calls_ok, ?List.filter_app, ?filter_deletes by assumption;
    cbn; rewrite ?Hd, ?Hc; cbn;
    try destruct (f (CSaveFile ext (output_name ext))); cbn;
    (split; [auto|try discriminate; auto]).
Qed.


Lemma run_form_accessor_calls fileUrl ext fuel o t :
  run_form fileUrl ext fuel o t ->
  (forall e, t <> [(COpenFile fileUrl, Some e)]) ->
  accessor_calls t = accessor_call ext.
Proof.
  unfold accessor_calls.
  intros [e | c e Hc | | c e Hc | c o' t' Hc Ht] Hne.
  - now destruct (Hne e).
  - destruct (accessor_call_cases ext) as [H | [H | H]];
      rewrite H in *; try discriminate; injection Hc as <-; reflexivity.
  - rewrite calls_ok.
    now destruct (accessor_call_cases ext) as [-> | [-> | ->]].
  - rewrite calls_app, calls_ok.
    now destruct (accessor_call_cases ext) as [-> | [-> | ->]].
  - rewrite calls_app, calls_ok, List.filter_app.
    destruct (@tail_form_filter is_accessor ext fuel o' t') as [[-> | ->] _]; auto;
      unfold head_calls;
      now destruct (accessor_call_cases ext) as [-> | [-> | ->]].
Qed.

Lemma run_form_save_calls fileUrl ext fuel o t :
  run_form fileUrl ext fuel o t ->
  (save_calls t = [] \/ save_calls t = [CSaveFile ext (output_name ext)]) /\
  (o = Done tt -> save_calls t = [CSaveFile ext (output_name ext)]).
Proof.
  unfold save_calls.
  assert (List.filter is_save (head_calls fileUrl ext) = []) as Hh.
  { unfold head_calls. now destruct (accessor_call_cases ext) as [-> | [-> | ->]]. }
  intros [e | c e Hc | | c e Hc | c o' t' Hc Ht].
  - split; [now left|discriminate].
  - split; [left|discriminate].
    destruct (accessor_call_cases ext) as [H | [H | H]];
      rewrite H in *; try discriminate; injection Hc as <-; reflexivity.
  - split; [left|discriminate]. rewrite calls_ok.
    now destruct (accessor_call_cases ext) as [-> | [-> | ->]].
  - split; [left|discriminate]. rewrite calls_app, calls_ok.
    now destruct (accessor_call_cases ext) as [-> | [-> | ->]].
  - rewrite calls_app, calls_ok, List.filter_app, Hh.
    now apply (@tail_form_filter is_save ext fuel o' t').
Qed.

Section Facts.
Context {W : Type} (host : Host W).

Lemma run_first_event fuel fileUrl ext s :
  exists rest,
    res_trace (run host fuel fileUrl ext s) =
    (COpenFile fileUrl, reply_error (fst (OpenFile host fileUrl s))) :: rest.
Proof.
  unfold run, script, bind at 1, host_call at 1.
  destruct (OpenFile host fileUrl s) as [[[]|e] s1]; [|cbn; eauto].
  match goal with
  | |- context [bind ?m ?f s1] => destruct (bind m f s1) as [[o s2] t2]
  end.
  cbn. eauto.
Qed.

(** An unsupported extension: the run is [OpenFile] followed by the
    engine's [TypeError], whatever the extension is. *)
Lemma run_unsupported fuel fileUrl ext s :
  ~ In ext supported ->
  run host fuel fileUrl ext s =
  match OpenFile host fileUrl s with
  | (Returns _, s1) => (Throw TypeError, s1, [(COpenFile fileUrl, None)])
  | (Throws e, s1) => (Throw e, s1, [(COpenFile fileUrl, Some e)])
  end.
Proof.
  intros H. unfold run, script, bind at 1, host_call at 1.
  destruct (OpenFile host fileUrl s) as [[[]|e] s1]; [|reflexivity].
  unfold bind at 1.
  now rewrite select_document_none by now apply accessor_call_unsupported.
Qed.

Lemma run_form_of fuel fileUrl ext s :
  run_form fileUrl ext fuel (res_outcome (run host fuel fileUrl ext s))
                            (res_trace (run host fuel fileUrl ext s)).
Proof.
  destruct (run host fuel fileUrl ext s) as [[o s'] t] eqn:H.
  exact (run_has_form host _ _ _ _ H).
Qed.

End Facts.

Lemma lower_supported ext : In ext supported -> lower ext = ext.
Proof.
  unfold supported. cbn. intros [<- | [<- | [<- | [<- | []]]]]; reflexivity.
Qed.

(** ** Facts about lists of calls *)


Lemma omap_delete_target ds : omap delete_target (map CDelete ds) = ds.
Proof.
  induction ds as [|d ds IH]; [reflexivity|]. cbn. now rewrite IH.
Qed.

Lemma deletions_plan fileUrl ext ds :
  omap delete_target (plan fileUrl ext ds) = ds.
Proof.
  unfold plan, head_calls. cbn. rewrite !omap_app, omap_delete_target.
  destruct (accessor_call_cases ext) as [-> | [-> | ->]]; cbn;
    now rewrite app_nil_r.
Qed.


(** Removing the comments one by one. *)
Lemma remove_comment_step c l (cs : list loc) :
  filter (fun x => x ≠ c) (filter (fun x => x ∉ l) cs) =
  filter (fun x => x ∉ l ++ [c]) cs.
Proof.
  rewrite list_filter_filter. apply list_filter_iff.
  intros x. rewrite elem_of_app, list_elem_of_singleton. tauto.
Qed.

Lemma filter_not_in_self (cs l : list loc) :
  (forall x, x ∈ l -> x ∈ cs) -> filter (fun x => x ∉ cs) l = [].
Proof.
  induction l as [|x l IH]; intros H; [reflexivity|].
  rewrite filter_cons_False.
  - apply IH. intros y Hy. apply H. now right.
  - intros Hx. apply Hx, H. now left.
Qed.

Lemma ok_plan fileUrl ext ds :
  ok (plan fileUrl ext ds) =
  ok (head_calls fileUrl ext) ++ ok (map CDelete ds) ++
  ok [CSaveFile ext (output_name ext); CCloseFile].
Proof.
  unfold plan, ok. now rewrite !map_app.
Qed.

Lemma filter_not_in_nil (cs : list loc) :
  filter (fun x => x ∉ @nil loc) cs = cs.
Proof.
  induction cs as [|x cs IH]; [reflexivity|].
  rewrite filter_cons_True by apply not_elem_of_nil. now rewrite IH.
Qed.

(** ** Runs on a host that meets the contracts *)

Section Contract.
Context {W : Type} (host : Host W).
Context (files : W -> gmap string Doc) (opened : W -> option Doc).
Hypothesis Hfiles : only_save_writes files host.
Hypothesis Hcopy : edits_session_copy files opened host.

(** Lines 1-15: either a call throws, or the script holds an array of the
    document's comments. *)
Lemma fetch_contract fileUrl ext s doc :
  In ext supported ->
  files (world s) !! fileUrl = Some doc ->
  (exists c e s' pre,
     fetch host fileUrl ext s = (Throw e, s', ok pre ++ [(c, Some e)])) \/
  (exists a s3,
     fetch host fileUrl ext s = (Done (VRef a), s3, ok (head_calls fileUrl ext)) /\
     opened (world s3) = Some doc /\
     arrays s3 !! a = Some (map VRef (comments doc)) /\
     files (world s3) = files (world s)).
Proof.
  intros Hext Hdoc.
  assert (exists c, accessor_call ext = [c]) as [c Hc].
  { destruct (accessor_call_supported Hext) as [[_ ->] | [_ ->]]; eauto. }
  unfold fetch, bind, host_call.
  destruct (OpenFile host fileUrl s) as [[[]|e] s1] eqn:HO.
  2:{ left. now exists (COpenFile fileUrl), e, s1, []. }
  destruct (esc_open Hcopy _ _ HO) as [Ho1 _]. rewrite Hdoc in Ho1.
  pose proof (osw_open Hfiles _ _ HO) as Hf1.
  destruct (select_document_some host ext s1 Hc) as (op & Hop & ->).
  unfold host_call.
  destruct (op s1) as [[v|e] s2] eqn:Hs.
  2:{ left. now exists c, e, s2, [COpenFile fileUrl]. }
  assert (opened (world s2) = Some doc /\ files (world s2) = files (world s) /\
          exists d, v = VRef d) as (Ho2 & Hf2 & d & ->).
  { rewrite <- Ho1, <- Hf1. destruct Hop as [[-> _] | [-> _]].
    - destruct (esc_document Hcopy _ Hs). split; [assumption|].
      split; [eapply osw_document; eauto|assumption].
    - destruct (esc_sheet Hcopy _ Hs). split; [assumption|].
      split; [eapply osw_sheet; eauto|assumption]. }
  cbn. unfold host_call.
  destruct (GetAllComments host d s2) as [[v|e] s3] eqn:HG.
  2:{ left. now exists CGetAllComments, e, s3, [COpenFile fileUrl; c]. }
  destruct (esc_enumerate Hcopy _ _ HG) as (Ho3 & a & doc' & -> & Hd' & Ha).
  rewrite Ho2 in Hd'. injection Hd' as <-. rewrite Ho2 in Ho3.
  right. exists a, s3. unfold head_calls. rewrite Hc.
  split; [reflexivity|]. split; [assumption|]. split; [assumption|].
  rewrite <- Hf2. eapply osw_enumerate; eauto.
Qed.

(** Lines 16-21 on such an array: either a call throws, or every comment is
    deleted and the document saved. *)
Lemma strip_and_save_contract fuel ext a s3 doc :
  stable host a ->
  opened (world s3) = Some doc ->
  arrays s3 !! a = Some (map VRef (comments doc)) ->
  length (comments doc) < fuel ->
  (exists c e s' pre,
     strip_and_save host fuel ext (VRef a) s3 = (Throw e, s', ok pre ++ [(c, Some e)])) \/
  (exists s',
     strip_and_save host fuel ext (VRef a) s3 =
       (Done tt, s',
        ok (map CDelete (comments doc)) ++
        ok [CSaveFile ext (output_name ext); CCloseFile]) /\
     files (world s') =
       <[output_name ext := mkDoc (body doc) []]> (files (world s3))).
Proof.
  intros Hst Ho3 Ha Hfuel. set (cs := comments doc) in *.
  unfold strip_and_save, bind, host_call.
  destruct (delete_loop host fuel (VRef a) 0 s3) as [[o s4] tl] eqn:HL.
  destruct (@delete_loop_inv W host
              (fun j st => arrays st !! a = Some (map VRef cs) /\
                           opened (world st) =
                             Some (mkDoc (body doc) (filter (fun x => x ∉ take j cs) cs)) /\
                           files (world st) = files (world s3))
              a cs fuel)
    with (i := 0) (s := s3) (o := o) (s' := s4) (t := tl)
    as [(-> & -> & _ & Ho4 & Hf4) |
        [(k & c & e & st & -> & _ & _ & _ & ->) | (_ & Hlen & _)]];
    auto using Nat.le_0_l.
  - intros j c st st' Hc (Harr & Hop' & Hfl) HD.
    pose proof (esc_delete Hcopy _ _ HD) as Hop''.
    rewrite (Hst _ _ _ HD), Hop'', Hop', (osw_delete Hfiles _ _ HD). cbn.
    unfold remove_comment. cbn.
    now rewrite remove_comment_step, <- (take_S_r _ _ _ Hc).
  - tauto.
  - split; [assumption|]. split; [|reflexivity].
    rewrite Ho3. cbn [take]. rewrite filter_not_in_nil.
    unfold cs. now destruct doc.
  - rewrite drop_0. rewrite take_ge, filter_not_in_self in Ho4 by auto.
    destruct (SaveFile host ext (output_name ext) s4) as [[[]|e] s5] eqn:HS.
    2:{ left. now exists (CSaveFile ext (output_name ext)), e, s5, (map CDelete cs). }
    destruct (esc_save Hcopy _ _ _ HS) as (doc4 & Hd4 & Hf5).
    rewrite Ho4 in Hd4. injection Hd4 as <-.
    destruct (CloseFile host s5) as [[[]|e] s6] eqn:HC.
    + right. exists s6. split; [reflexivity|].
      now rewrite (osw_close Hfiles _ HC), Hf5, Hf4.
    + left. exists CCloseFile, e, s6,
        (map CDelete cs ++ [CSaveFile ext (output_name ext)]).
      now rewrite ok_app, <- app_assoc.
  - left. exists (CDelete c), e, s4, (map CDelete (take k (drop 0 cs))).
    reflexivity.
  - lia.
Qed.

End Contract.

(** ** The sample host processes every document *)

Lemma not_in_take (cs : list loc) k c :
  NoDup cs -> cs !! k = Some c -> c ∉ take k cs.
Proof.
  intros Hnd Hk Hin. apply list_elem_of_lookup in Hin as [j Hj].
  pose proof (lookup_lt_Some _ _ _ Hj) as Hlt. rewrite length_take in Hlt.
  rewrite lookup_take_lt in Hj by lia.
  pose proof (NoDup_lookup _ _ _ _ Hnd Hj Hk). lia.
Qed.

Lemma snapshot_host_fetch url ext d w :
  In ext supported ->
  fetch snapshot_host url ext (one_file url d w) =
  (Done (VRef 10),
   mkStore {[ 10 := map VRef (comments d) ]} (mkWorld {[ url := d ]} (Some d) w 11),
   ok (head_calls url ext)).
Proof.
  intros Hext. unfold fetch, bind, host_call. cbn.
  unfold sample_OpenFile. cbn. rewrite lookup_singleton_eq.
  destruct (accessor_call_supported Hext) as [[[-> | ->] _] | [[-> | ->] _]];
    reflexivity.
Qed.

(** On the sample host a document whose comments are distinct is always
    processed to the end: every host call returns, whatever the number of
    comments. *)
Lemma snapshot_host_completes url ext b cs :
  In ext supported ->
  NoDup cs ->
  res_outcome (run snapshot_host (S (length cs)) url ext
                 (one_file url (mkDoc b cs) true)) = Done tt.
Proof.
  intros Hext Hnd.
  rewrite (run_after_fetch snapshot_host _ _ _ _ (snapshot_host_fetch url _ _ Hext)).
  cbn [res_outcome fst comments].
  unfold strip_and_save, bind at 1.
  destruct (delete_loop snapshot_host (S (length cs)) (VRef 10) 0 _)
    as [[o s4] tl] eqn:HL.
  destruct (@delete_loop_inv World snapshot_host
              (fun j st => arrays st !! 10 = Some (map VRef cs) /\
                           session (world st) =
                             Some (mkDoc b (filter (fun x => x ∉ take j cs) cs)) /\
                           writable (world st) = true)
              10 cs (S (length cs)))
    with (i := 0) (s := mkStore {[ 10 := map VRef cs ]}
                          (mkWorld {[ url := mkDoc b cs ]} (Some (mkDoc b cs)) true 11))
         (o := o) (s' := s4) (t := tl)
    as [(-> & _ & _ & Hs4 & Hw4) |
        [(k & c & e & st & _ & Hk & (_ & Hs & _) & HD & _) | (_ & Hlen & _)]];
    auto using Nat.le_0_l.
  - intros j c st st' Hc (Harr & Hs & Hw). cbn. unfold snapshot_Delete.
    rewrite Hs. destruct (bool_decide _); [|discriminate].
    intros [= <-]. cbn. unfold remove_comment. cbn.
    now rewrite remove_comment_step, <- (take_S_r _ _ _ Hc).
  - tauto.
  - cbn. rewrite lookup_singleton_eq, filter_not_in_nil. auto.
  - unfold bind, host_call. cbn. unfold sample_SaveFile.
    now rewrite Hs4, Hw4.
  - exfalso. cbn in HD. unfold snapshot_Delete in HD. rewrite Hs in HD. cbn in HD.
    rewrite bool_decide_eq_true_2 in HD; [discriminate|].
    apply list_elem_of_filter. split.
    + cbn [Nat.add] in Hk. now apply not_in_take.
    + apply list_elem_of_lookup. eauto.
  - lia.
Qed.

(** ** The other sample host meets the contracts too *)

Lemma live_host_only_save_writes : only_save_writes disk live_host.
Proof.
  split; cbn.
  - intros url s r s'. unfold sample_OpenFile.
    destruct (disk (world s) !! url); now intros [= <- <-].
  - intros s r s'. unfold sample_accessor.
    destruct (session (world s)); now intros [= <- <-].
  - intros s r s'. unfold sample_accessor.
    destruct (session (world s)); now intros [= <- <-].
  - intros d s r s'. unfold live_GetAllComments.
    destruct (session (world s)); now intros [= <- <-].
  - intros c s r s'. unfold live_Delete.
    destruct (session (world s)) as [doc|]; [|now intros [= <- <-]].
    destruct (bool_decide (c ∈ comments doc)); now intros [= <- <-].
  - intros f n s e s'. unfold sample_SaveFile.
    destruct (session (world s)); [|now intros [= <- <-]].
    destruct (writable (world s)); [discriminate|now intros [= <- <-]].
  - intros s r s'. unfold sample_CloseFile. now intros [= <- <-].
Qed.

Lemma live_host_edits_session_copy :
  edits_session_copy disk session live_host.
Proof.
  split; cbn.
  - intros url s s'. unfold sample_OpenFile.
    destruct (disk (world s) !! url) as [d|] eqn:Hd; [|discriminate].
    intros [= <-]. cbn. eauto.
  - intros s v s'. unfold sample_accessor.
    destruct (session (world s)) eqn:Hs; [|discriminate]. intros [= <- <-]. eauto.
  - intros s v s'. unfold sample_accessor.
    destruct (session (world s)) eqn:Hs; [|discriminate]. intros [= <- <-]. eauto.
  - intros d s v s'. unfold live_GetAllComments.
    destruct (session (world s)) as [doc|] eqn:Hs; [|discriminate].
    intros [= <- <-]. cbn. split; [assumption|].
    exists live_loc, doc. rewrite lookup_insert_eq. auto.
  - intros c s s'. unfold live_Delete.
    destruct (session (world s)) as [doc|] eqn:Hs; [|discriminate].
    destruct (bool_decide (c ∈ comments doc)); [|discriminate].
    intros [= <-]. cbn. auto.
  - intros f n s s'. unfold sample_SaveFile.
    destruct (session (world s)) as [doc|] eqn:Hs; [|discriminate].
    destruct (writable (world s)); [|discriminate].
    intros [= <-]. exists doc. auto.
Qed.

Lemma snapshot_host_returns_snapshot fileUrl ext s :
  returns_snapshot snapshot_host fileUrl ext s.
Proof. intros a s3 t0 _. apply snapshot_host_stable. Qed.

(** ** The journal agrees with the log *)

Section Journal.
Context {W : Type} (host : Host W).

Lemma without_with_journal (s : Store W) j :
  without_journal (with_journal s j) = s.
Proof. now destruct s. Qed.

Lemma sim_ret A (a : A) : simulates (W:=W) (ret a) (ret a).
Proof. intros s. cbn. now rewrite app_nil_r. Qed.

Lemma sim_throw A e : simulates (W:=W) (A:=A) (throw e) (throw e).
Proof. intros s. cbn. now rewrite app_nil_r. Qed.

Lemma sim_out_of_fuel A : simulates (W:=W) (A:=A) out_of_fuel out_of_fuel.
Proof. intros s. cbn. now rewrite app_nil_r. Qed.

Lemma sim_bind A B (m : M (W * list Call) A) (m0 : M W A)
    (f : A -> M (W * list Call) B) (f0 : A -> M W B) :
  simulates m m0 -> (forall a, simulates (f a) (f0 a)) ->
  simulates (bind m f) (bind m0 f0).
Proof.
  intros Hm Hf s. unfold bind.
  destruct (Hm s) as [E J]. rewrite E.
  destruct (m s) as [[[a|e|] s1] t1]; cbn in *; auto.
  destruct (Hf a s1) as [E' J']. rewrite E'.
  destruct (f a s1) as [[o2 s2] t2]; cbn in *.
  split; [reflexivity|].
  now rewrite J', J, calls_app, app_assoc.
Qed.

Lemma sim_host_call A c (op : Store W -> reply A * Store W) :
  simulates (host_call c (journal_op c op)) (host_call c op).
Proof.
  intros s. unfold host_call, journal_op.
  destruct (op (without_journal s)) as [[a|e] s1]; cbn;
    now rewrite without_with_journal.
Qed.

Lemma sim_select_document ext :
  simulates (select_document (journaled host) ext) (select_document host ext).
Proof.
  unfold select_document.
  destruct ((ext =? "doc") || (ext =? "docx")); [apply sim_host_call|].
  destruct ((ext =? "xls") || (ext =? "xlsx")); [apply sim_host_call|].
  apply sim_ret.
Qed.

Lemma sim_invoke_GetAllComments v :
  simulates (invoke_GetAllComments (journaled host) v) (invoke_GetAllComments host v).
Proof. destruct v; [apply sim_throw|apply sim_host_call]. Qed.

Lemma sim_invoke_Delete v :
  simulates (invoke_Delete (journaled host) v) (invoke_Delete host v).
Proof. destruct v; [apply sim_throw|apply sim_host_call]. Qed.

Lemma sim_get_length v :
  simulates (W:=W) (get_length v) (get_length v).
Proof.
  destruct v; [apply sim_throw|]. intros s. cbn. now rewrite app_nil_r.
Qed.

Lemma sim_get_index v i :
  simulates (W:=W) (get_index v i) (get_index v i).
Proof.
  destruct v; [apply sim_throw|]. intros s. cbn. now rewrite app_nil_r.
Qed.

Lemma sim_delete_loop fuel v :
  forall i, simulates (delete_loop (journaled host) fuel v i) (delete_loop host fuel v i).
Proof.
  induction fuel as [|fuel IH]; intros i; [apply sim_out_of_fuel|].
  cbn [delete_loop]. apply sim_bind; [apply sim_get_length|].
  intros len. destruct (lt_length i len); [|apply sim_ret].
  apply sim_bind; [apply sim_get_index|]. intros c.
  apply sim_bind; [apply sim_invoke_Delete|]. intros _. apply IH.
Qed.

Lemma sim_script fuel fileUrl ext :
  simulates (script (journaled host) fuel fileUrl ext) (script host fuel fileUrl ext).
Proof.
  unfold script.
  apply sim_bind; [apply sim_host_call|]. intros _.
  apply sim_bind; [apply sim_select_document|]. intros d.
  apply sim_bind; [apply sim_invoke_GetAllComments|]. intros a.
  apply sim_bind; [apply sim_delete_loop|]. intros _.
  apply sim_bind; [apply sim_host_call|]. intros _.
  apply sim_host_call.
Qed.

(** The operations the host records are the calls the script logs, and the
    journal changes nothing else about the run. *)
Lemma log_is_faithful fuel fileUrl ext s :
  received host fuel fileUrl ext s = calls (res_trace (run host fuel fileUrl ext s)).
Proof.
  unfold received, run.
  destruct (sim_script fuel fileUrl ext (with_journal s [])) as [E J].
  rewrite without_with_journal in E. rewrite J, E. reflexivity.
Qed.

End Journal.

(** ** Where a run over a snapshot stops *)

Section Ends.
Context {W : Type} (host : Host W).

Lemma take_deletes_tail k cs (rest : list Call) :
  k <= length cs ->
  take k (map CDelete cs ++ rest) = map CDelete (take k cs).
Proof.
  intros Hk. rewrite take_app_le by (now rewrite length_map).
  now rewrite <- firstn_map.
Qed.

Lemma strip_and_save_ends fuel ext a cs s o s' t :
  stable host a ->
  arrays s !! a = Some (map VRef cs) ->
  length cs < fuel ->
  strip_and_save host fuel ext (VRef a) s = (o, s', t) ->
  stops_in (map CDelete cs ++ [CSaveFile ext (output_name ext); CCloseFile]) o t.
Proof.
  intros Hst Ha Hfuel. unfold strip_and_save, bind, host_call.
  destruct (delete_loop host fuel (VRef a) 0 s) as [[o1 s1] t1] eqn:HL.
  destruct (@delete_loop_snapshot W host a cs fuel 0 s o1 s1 t1 Hst Ha (Nat.le_0_l _) HL)
    as [(-> & -> & _) | [(k & c & e & -> & Hk & ->) | (-> & Hf & ->)]].
  - rewrite drop_0.
    destruct (SaveFile host ext (output_name ext) s1) as [[[]|e] s2].
    + destruct (CloseFile host s2) as [[[]|e] s3]; intros [= <- <- <-].
      * left. now rewrite ok_app.
      * right. exists (S (length cs)), CCloseFile, e. split; [reflexivity|]. split.
        -- rewrite lookup_app_r by (rewrite length_map; lia).
           rewrite length_map. now replace (S (length cs) - length cs) with 1 by lia.
        -- rewrite take_app_ge by (rewrite length_map; lia).
           rewrite length_map. replace (S (length cs) - length cs) with 1 by lia.
           cbn [take]. now rewrite !ok_app, <- app_assoc.
    + intros [= <- <- <-]. right.
      exists (length cs), (CSaveFile ext (output_name ext)), e.
      split; [reflexivity|]. split.
      * rewrite lookup_app_r by (now rewrite length_map).
        rewrite length_map, Nat.sub_diag. reflexivity.
      * rewrite take_deletes_tail by lia. now rewrite firstn_all.
  - intros [= <- <- <-]. right. cbn [Nat.add] in Hk.
    exists k, (CDelete c), e. split; [reflexivity|].
    pose proof (lookup_lt_Some _ _ _ Hk) as Hlt. split.
    + rewrite lookup_app_l by (now rewrite length_map).
      now rewrite list_lookup_fmap, Hk.
    + rewrite drop_0, take_deletes_tail by lia. reflexivity.
  - intros _. lia.
Qed.

(** A run over a snapshot that fits in the fuel takes the plan to its end,
    or stops at the first call of the plan that throws. *)
Lemma run_snapshot_ends fuel fileUrl ext s a s3 t0 cs :
  fetch host fileUrl ext s = (Done (VRef a), s3, t0) ->
  arrays s3 !! a = Some (map VRef cs) ->
  stable host a ->
  length cs < fuel ->
  stops_in (plan fileUrl ext cs)
    (res_outcome (run host fuel fileUrl ext s))
    (res_trace (run host fuel fileUrl ext s)).
Proof.
  intros Hf Ha Hst Hfuel. rewrite (run_after_fetch host fuel _ _ _ Hf).
  destruct (strip_and_save host fuel ext (VRef a) s3) as [[o1 s1] t1] eqn:Hs.
  cbn [res_outcome res_trace fst snd].
  destruct (fetch_form host 0 _ _ _ Hf) as [_ ->].
  destruct (@strip_and_save_ends fuel ext a cs s3 o1 s1 t1 Hst Ha Hfuel Hs)
    as [[-> ->] | (n & c & e & -> & Hn & ->)].
  - left. split; [reflexivity|]. unfold plan. now rewrite <- ok_app.
  - right. exists (length (head_calls fileUrl ext) + n), c, e.
    split; [reflexivity|]. unfold plan. split.
    + rewrite lookup_app_r by lia.
      now replace (length (head_calls fileUrl ext) + n - length (head_calls fileUrl ext))
        with n by lia.
    + rewrite (take_app_ge (head_calls fileUrl ext)) by lia.
      replace (length (head_calls fileUrl ext) + n - length (head_calls fileUrl ext))
        with n by lia.
      now rewrite (ok_app (head_calls fileUrl ext)), <- app_assoc.
Qed.

End Ends.

(** Two runs of the same plan whose calls are answered alike stop at the same
    place. *)
Lemma ok_length cs : length (ok cs) = length cs.
Proof. unfold ok. apply length_map. Qed.

Lemma ok_lookup cs k c : cs !! k = Some c -> ok cs !! k = Some (c, None).
Proof. intros H. unfold ok. now rewrite list_lookup_fmap, H. Qed.

Lemma stopped_lookup p n c e :
  p !! n = Some c -> (ok (take n p) ++ [(c, Some e)]) !! n = Some (c, Some e).
Proof.
  intros Hn. pose proof (lookup_lt_Some _ _ _ Hn) as Hlt.
  rewrite lookup_app_r by (rewrite ok_length, length_take; lia).
  rewrite ok_length, length_take.
  now replace (n - n `min` length p) with 0 by lia.
Qed.

Lemma stopped_lookup_before p n m c c' e :
  p !! m = Some c' -> m < n ->
  (ok (take n p) ++ [(c, Some e)]) !! m = Some (c', None).
Proof.
  intros Hm Hlt. pose proof (lookup_lt_Some _ _ _ Hm) as Hlen.
  rewrite lookup_app_l by (rewrite ok_length, length_take; lia).
  apply ok_lookup. now rewrite lookup_take_lt.
Qed.

Lemma stops_in_alike p o1 t1 o2 t2 :
  stops_in p o1 t1 -> stops_in p o2 t2 -> answered_alike t1 t2 ->
  calls t1 = calls t2.
Proof.
  intros [[-> ->] | (n1 & c1 & e1 & -> & H1 & ->)]
         [[-> ->] | (n2 & c2 & e2 & -> & H2 & ->)] Hal; [reflexivity| | |].
  - exfalso.
    specialize (Hal n2 _ _ (@ok_lookup p n2 c2 H2) (@stopped_lookup p n2 c2 e2 H2)).
    discriminate.
  - exfalso.
    specialize (Hal n1 _ _ (@stopped_lookup p n1 c1 e1 H1) (@ok_lookup p n1 c1 H1)).
    discriminate.
  - destruct (Nat.lt_trichotomy n1 n2) as [Hlt | [-> | Hlt]].
    + exfalso.
      specialize (Hal n1 _ _ (@stopped_lookup p n1 c1 e1 H1)
                    (@stopped_lookup_before p n2 n1 c2 c1 e2 H1 Hlt)).
      discriminate.
    + rewrite H1 in H2. injection H2 as <-.
      now rewrite !calls_app, !calls_ok.
    + exfalso.
      specialize (Hal n2 _ _ (@stopped_lookup_before p n1 n2 c1 c2 e1 H2 Hlt)
                    (@stopped_lookup p n2 c2 e2 H2)).
      discriminate.
Qed.

(** ** The deletions of a run fix its plan *)






(** ** The selection step applies the accessor *)

Lemma select_document_applies {W} (host : Host W) ext c
    (op : Store W -> reply value * Store W) s1 :
  select_document host ext = host_call c op ->
  res_outcome (select_document host ext s1) =
    match fst (op s1) with Returns v => Done v | Throws e => Throw e end /\
  res_store (select_document host ext s1) = snd (op s1).
Proof.
  intros ->. unfold host_call. now destruct (op s1) as [[v|e] s2].
Qed.

(** ** The save step applies [SaveFile] to what the loop left *)

Lemma run_reaches_save {W} (host : Host W) fuel fileUrl ext s v s3 t0 s4 tl :
  fetch host fileUrl ext s = (Done v, s3, t0) ->
  delete_loop host fuel v 0 s3 = (Done tt, s4, tl) ->
  In (CSaveFile ext (output_name ext))
     (calls (res_trace (run host fuel fileUrl ext s))) /\
  res_store (run host fuel fileUrl ext s) =
    match SaveFile host ext (output_name ext) s4 with
    | (Returns _, s5) => snd (CloseFile host s5)
    | (Throws _, s5) => s5
    end.
Proof.
  intros Hf HL. rewrite (run_after_fetch host fuel _ _ _ Hf).
  unfold strip_and_save, bind, host_call. rewrite HL.
  destruct (SaveFile host ext (output_name ext) s4) as [[[]|e] s5].
  - destruct (CloseFile host s5) as [[[]|e] s6]; cbn [res_trace res_store fst snd];
      (split; [|reflexivity]); rewrite !calls_app, !in_app_iff; cbn; auto.
  - cbn [res_trace res_store fst snd].
    split; [|reflexivity]. rewrite !calls_app, !in_app_iff. cbn. auto.
Qed.

(** ** A host whose array grows under the loop *)

Lemma growing_loop_never_ends fuel :
  forall i s,
    arrays s !! live_loc = Some (replicate (S i) (VRef 21)) ->
    res_outcome (delete_loop growing_host fuel (VRef live_loc) i s) = OutOfFuel /\
    all_returned (res_trace (delete_loop growing_host fuel (VRef live_loc) i s)) = true.
Proof.
  induction fuel as [|fuel IH]; intros i s Ha; [now split|].
  assert (replicate (S i) (VRef 21) !! i = Some (VRef 21)) as Hi
    by (apply lookup_replicate_2; lia).
  rewrite (@delete_loop_turn unit growing_host fuel live_loc i s _ 21 Ha Hi).
  cbn [growing_host Delete res_outcome res_trace fst snd].
  apply IH. cbn [arrays]. rewrite lookup_alter_eq, Ha. cbn [fmap option_fmap option_map].
  f_equal. change (VRef 21 :: replicate i (VRef 21)) with (replicate (S i) (VRef 21)).
  now rewrite <- replicate_S_end.
Qed.

Lemma growing_host_never_ends fuel fileUrl ext :
  In ext supported ->
  res_outcome (run growing_host fuel fileUrl ext
                 (mkStore {[ live_loc := [VRef 21] ]} tt)) = OutOfFuel /\
  all_returned (res_trace (run growing_host fuel fileUrl ext
                             (mkStore {[ live_loc := [VRef 21] ]} tt))) = true.
Proof.
  intros Hext.
  assert (fetch growing_host fileUrl ext (mkStore {[ live_loc := [VRef 21] ]} tt) =
          (Done (VRef live_loc), mkStore {[ live_loc := [VRef 21] ]} tt,
           ok (head_calls fileUrl ext))) as Hf.
  { unfold fetch, bind, host_call, select_document, head_calls, accessor_call.
    cbn in Hext.
    destruct Hext as [<- | [<- | [<- | [<- | []]]]]; reflexivity. }
  rewrite (run_after_fetch growing_host fuel _ _ _ Hf).
  unfold strip_and_save, bind.
  destruct (@growing_loop_never_ends fuel 0 (mkStore {[ live_loc := [VRef 21] ]} tt))
    as [Ho Ht]; [apply lookup_singleton_eq|].
  destruct (delete_loop growing_host fuel (VRef live_loc) 0
              (mkStore {[ live_loc := [VRef 21] ]} tt)) as [[o1 s1] t1].
  cbn in Ho, Ht. subst o1. cbn [res_outcome res_trace fst snd].
  split; [reflexivity|].
  unfold all_returned in *. rewrite forallb_app, Ht, andb_true_r.
  unfold ok. apply forallb_forall. intros x Hx.
  apply in_map_iff in Hx as (c & <- & _). reflexivity.
Qed.

(** * The claims *)

(** C1, as the code has it: on a host that edits a session copy of the file
    and writes files only in [SaveFile], and whose [Delete] leaves the array
    that [GetAllComments] returned to this run as it is, take a document with
    any number of comments, a supported extension and fuel for one test more
    than there are comments.  If every host call of the run returns, the run
    completes; the host has received [Delete] on every entry of that array
    (the comments of the document, in order) and no call outside the fixed
    sequence; and the file written under the output name is the source
    document with no comment and with its body as it was, the other files
    being as they were. *)
Theorem all_comments_deleted {W} (host : Host W)
    (files : W -> gmap string Doc) (opened : W -> option Doc)
    fuel fileUrl ext s doc :
  only_save_writes files host ->
  edits_session_copy files opened host ->
  returns_snapshot host fileUrl ext s ->
  files (world s) !! fileUrl = Some doc ->
  In ext supported ->
  length (comments doc) < fuel ->
  (forall c e, ~ In (c, Some e) (res_trace (run host fuel fileUrl ext s))) ->
  res_outcome (run host fuel fileUrl ext s) = Done tt /\
  deletions (res_trace (run host fuel fileUrl ext s)) = comments doc /\
  res_trace (run host fuel fileUrl ext s) = ok (plan fileUrl ext (comments doc)) /\
  received host fuel fileUrl ext s = plan fileUrl ext (comments doc) /\
  files (world (res_store (run host fuel fileUrl ext s))) =
    <[output_name ext := mkDoc (body doc) []]> (files (world s)).
Proof.
  intros Hfiles Hcopy Hsnap Hdoc Hext Hfuel Hall.
  rewrite log_is_faithful.
  destruct (fetch_contract Hfiles Hcopy fileUrl s Hext Hdoc)
    as [(c & e & s' & pre & Hf) | (a & s3 & Hf & Ho & Ha & Hfl)].
  { exfalso. rewrite (run_fetch_throws host fuel _ _ _ Hf) in Hall.
    apply (Hall c e). apply in_app_iff. right. now left. }
  rewrite (run_after_fetch host fuel _ _ _ Hf) in *.
  destruct (@strip_and_save_contract W host files opened Hfiles Hcopy
              fuel ext a s3 doc (Hsnap _ _ _ Hf) Ho Ha Hfuel)
    as [(c & e & s' & pre & Hs) | (s' & Hs & Hfl')].
  { exfalso. rewrite Hs in Hall. apply (Hall c e). cbn [res_trace snd].
    rewrite !in_app_iff. right. right. now left. }
  rewrite Hs. cbn [res_outcome res_store res_trace fst snd].
  rewrite <- ok_plan.
  split; [reflexivity|]. split; [|split; [reflexivity|split]].
  - unfold deletions. rewrite calls_ok. apply deletions_plan.
  - apply calls_ok.
  - now rewrite Hfl', Hfl.
Qed.

Lemma all_comments_deleted_witness :
  received snapshot_host 4 "report.docx" "docx" (one_file "report.docx" report true)
    = plan "report.docx" "docx" [21; 22; 23] /\
  disk (world (res_store (run snapshot_host 4 "report.docx" "docx"
                            (one_file "report.docx" report true))))
    = <[ "output.docx" := mkDoc "Quarterly report" [] ]> {[ "report.docx" := report ]}.
Proof.
  apply (@all_comments_deleted World snapshot_host disk session 4
           "report.docx" "docx" (one_file "report.docx" report true) report
           snapshot_host_only_save_writes snapshot_host_edits_session_copy).
  - apply snapshot_host_returns_snapshot.
  - vm_compute. reflexivity.
  - cbn. auto.
  - cbn. lia.
  - intros c e H. vm_compute in H.
    repeat (destruct H as [H | H]; [discriminate|]). destruct H.
Defined.

(** C1, as stated, fails on a host that edits a session copy, writes files
    only in [SaveFile], returns the document's own array from
    [GetAllComments] and removes the comment from that array in [Delete]: the
    document holds the comments 41, 42, 43, 44, every host call returns and
    the run completes, yet [Delete] is issued on 41 and 43 only and the file
    written as output.docx still holds the comments 42 and 44. *)
Lemma live_host_leaves_comments :
  only_save_writes disk live_host /\
  edits_session_copy disk session live_host /\
  disk (world (one_file "minutes.docx" minutes true)) !! "minutes.docx"
    = Some (mkDoc "Minutes" [41; 42; 43; 44]) /\
  res_outcome (run live_host 5 "minutes.docx" "docx"
                 (one_file "minutes.docx" minutes true)) = Done tt /\
  all_returned (res_trace (run live_host 5 "minutes.docx" "docx"
                             (one_file "minutes.docx" minutes true))) = true /\
  deletions (res_trace (run live_host 5 "minutes.docx" "docx"
                          (one_file "minutes.docx" minutes true))) = [41; 43] /\
  disk (world (res_store (run live_host 5 "minutes.docx" "docx"
                            (one_file "minutes.docx" minutes true)))) !! "output.docx"
    = Some (mkDoc "Minutes" [42; 44]).
Proof.
  split; [exact live_host_only_save_writes|].
  split; [exact live_host_edits_session_copy|].
  vm_compute. repeat split.
Qed.

(** C2: for every [ext] outside doc, docx, xls and xlsx the switch selects no
    accessor and [oDocument] stays undefined; the run fails (it never
    completes): with the error of [OpenFile] if that call throws, otherwise
    with the [TypeError] raised at [oDocument.GetAllComments]; the only call
    that reaches the host is [OpenFile], so no comment enumeration takes
    place and no [SaveFile] is issued; on a host where only [SaveFile]
    writes, the files are those from before the run. *)
Theorem unsupported_ext_fails {W} (host : Host W) fuel fileUrl ext s :
  ~ In ext supported ->
  (forall s1, select_document host ext s1 = (Done VUndefined, s1, [])) /\
  (exists e, res_outcome (run host fuel fileUrl ext s) = Throw e) /\
  (forall u, fst (OpenFile host fileUrl s) = Returns u ->
     res_outcome (run host fuel fileUrl ext s) = Throw TypeError) /\
  res_trace (run host fuel fileUrl ext s) =
    [(COpenFile fileUrl, reply_error (fst (OpenFile host fileUrl s)))] /\
  res_store (run host fuel fileUrl ext s) = snd (OpenFile host fileUrl s) /\
  ~ In CGetAllComments (calls (res_trace (run host fuel fileUrl ext s))) /\
  save_calls (res_trace (run host fuel fileUrl ext s)) = [] /\
  (forall files, only_save_writes files host ->
     files (world (res_store (run host fuel fileUrl ext s))) = files (world s)).
Proof.
  intros Hext. split.
  { intros s1. now apply select_document_none, accessor_call_unsupported. }
  rewrite (run_unsupported host fuel fileUrl s Hext).
  destruct (OpenFile host fileUrl s) as [[[]|e] s1] eqn:HO; cbn.
  - repeat split; eauto.
    + intros [H | []]. discriminate.
    + intros files Hf. eapply osw_open; eauto.
  - repeat split; eauto.
    + discriminate.
    + intros [H | []]. discriminate.
    + intros files Hf. eapply osw_open; eauto.
Qed.

Lemma unsupported_ext_fails_witness :
  res_outcome (run snapshot_host 5 "report.docx" "pdf"
                 (one_file "report.docx" report true)) = Throw TypeError.
Proof.
  assert (~ In "pdf" supported) as H.
  { cbn. intros [H | [H | [H | [H | []]]]]; discriminate. }
  apply (unsupported_ext_fails snapshot_host 5 "report.docx"
           (one_file "report.docx" report true) H) with (u := tt).
  reflexivity.
Defined.

(** C3: once the file is open, doc and docx invoke the text-document
    accessor [Api.GetDocument] and xls and xlsx the active-sheet accessor
    [Api.GetActiveSheet]: the accessor operations the host receives in the
    run are exactly that one, once, never the other; the value bound to
    [oDocument] is the one that accessor returned, and the store goes on as
    that accessor left it.  Any other extension reaches no accessor. *)
Theorem accessor_dispatch {W} (host : Host W) fuel fileUrl ext s :
  fst (OpenFile host fileUrl s) = Returns tt ->
  (ext = "doc" \/ ext = "docx" ->
   accessor_calls (res_trace (run host fuel fileUrl ext s)) = [CGetDocument] /\
   List.filter is_accessor (received host fuel fileUrl ext s) = [CGetDocument] /\
   forall s1,
     res_outcome (select_document host ext s1) =
       match fst (GetDocument host s1) with
       | Returns v => Done v
       | Throws e => Throw e
       end /\
     res_store (select_document host ext s1) = snd (GetDocument host s1)) /\
  (ext = "xls" \/ ext = "xlsx" ->
   accessor_calls (res_trace (run host fuel fileUrl ext s)) = [CGetActiveSheet] /\
   List.filter is_accessor (received host fuel fileUrl ext s) = [CGetActiveSheet] /\
   forall s1,
     res_outcome (select_document host ext s1) =
       match fst (GetActiveSheet host s1) with
       | Returns v => Done v
       | Throws e => Throw e
       end /\
     res_store (select_document host ext s1) = snd (GetActiveSheet host s1)) /\
  (~ In ext supported ->
   accessor_calls (res_trace (run host fuel fileUrl ext s)) = [] /\
   List.filter is_accessor (received host fuel fileUrl ext s) = []).
Proof.
  intros HO. rewrite log_is_faithful.
  change (List.filter is_accessor (calls (res_trace (run host fuel fileUrl ext s))))
    with (accessor_calls (res_trace (run host fuel fileUrl ext s))).
  assert (accessor_calls (res_trace (run host fuel fileUrl ext s)) = accessor_call ext)
    as ->.
  { apply (run_form_accessor_calls (run_form_of host fuel fileUrl ext s)).
    intros e He. destruct (run_first_event host fuel fileUrl ext s) as [rest Hr].
    rewrite Hr, HO in He. discriminate. }
  split; [|split].
  - intros Hext. split; [now destruct Hext as [-> | ->]|].
    split; [now destruct Hext as [-> | ->]|].
    intros s1. apply select_document_applies with CGetDocument.
    now destruct Hext as [-> | ->].
  - intros Hext. split; [now destruct Hext as [-> | ->]|].
    split; [now destruct Hext as [-> | ->]|].
    intros s1. apply select_document_applies with CGetActiveSheet.
    now destruct Hext as [-> | ->].
  - intros Hext. now rewrite accessor_call_unsupported.
Qed.

Lemma accessor_dispatch_witness :
  List.filter is_accessor
    (received snapshot_host 3 "budget.xlsx" "xlsx" (one_file "budget.xlsx" budget true))
  = [CGetActiveSheet].
Proof.
  apply (accessor_dispatch snapshot_host 3 "budget.xlsx" "xlsx"
           (one_file "budget.xlsx" budget true)).
  - reflexivity.
  - right. reflexivity.
Defined.




(** C5: whatever the file URL, every [SaveFile] the host receives has the
    format [ext] and the file name "output." followed by [ext]; a run that
    completes has had the host perform exactly that one; and as soon as the
    loop is done, [SaveFile] is applied with these two arguments to the store
    the loop left, the run ending in the store that this call (and the
    [CloseFile] after it, if it returned) leaves. *)
Theorem output_name_is_fixed {W} (host : Host W) fuel fileUrl ext s :
  (forall c, In c (save_calls (res_trace (run host fuel fileUrl ext s))) ->
     c = CSaveFile ext ("output." +:+ ext)) /\
  (res_outcome (run host fuel fileUrl ext s) = Done tt ->
   save_calls (res_trace (run host fuel fileUrl ext s)) =
     [CSaveFile ext ("output." +:+ ext)]) /\
  (forall format name,
     In (CSaveFile format name) (received host fuel fileUrl ext s) ->
     format = ext /\ name = "output." +:+ ext) /\
  (res_outcome (run host fuel fileUrl ext s) = Done tt ->
   List.filter is_save (received host fuel fileUrl ext s) =
     [CSaveFile ext ("output." +:+ ext)]) /\
  (forall v s3 t0 s4 tl,
     fetch host fileUrl ext s = (Done v, s3, t0) ->
     delete_loop host fuel v 0 s3 = (Done tt, s4, tl) ->
     In (CSaveFile ext ("output." +:+ ext)) (received host fuel fileUrl ext s) /\
     res_store (run host fuel fileUrl ext s) =
       match SaveFile host ext ("output." +:+ ext) s4 with
       | (Returns _, s5) => snd (CloseFile host s5)
       | (Throws _, s5) => s5
       end).
Proof.
  rewrite log_is_faithful.
  change (List.filter is_save (calls (res_trace (run host fuel fileUrl ext s))))
    with (save_calls (res_trace (run host fuel fileUrl ext s))).
  destruct (run_form_save_calls (run_form_of host fuel fileUrl ext s)) as [Hs Hd].
  assert (forall c, In c (save_calls (res_trace (run host fuel fileUrl ext s))) ->
            c = CSaveFile ext ("output." +:+ ext)) as Hall.
  { intros c Hc. destruct Hs as [Hs | Hs]; rewrite Hs in Hc.
    - destruct Hc.
    - destruct Hc as [<- | []]. reflexivity. }
  split; [exact Hall|]. split; [exact Hd|]. split; [|split; [exact Hd|]].
  - intros format name Hin.
    assert (CSaveFile format name = CSaveFile ext ("output." +:+ ext)) as [= -> ->]; auto.
    apply Hall. unfold save_calls. apply List.filter_In. auto.
  - intros v s3 t0 s4 tl Hf HL.
    exact (run_reaches_save host fuel fileUrl ext s Hf HL).
Qed.

Lemma output_name_is_fixed_witness :
  List.filter is_save
    (received snapshot_host 3 "budget.xlsx" "xlsx" (one_file "budget.xlsx" budget true))
  = [CSaveFile "xlsx" "output.xlsx"].
Proof.
  apply (output_name_is_fixed snapshot_host 3 "budget.xlsx" "xlsx"
           (one_file "budget.xlsx" budget true)).
  vm_compute. reflexivity.
Defined.








(** C9: the case labels are matched exactly.  An extension that differs from
    a supported one only in the case of its letters is not recognised: no
    accessor is selected, and the run is the same as for any other
    unsupported extension. *)
Theorem dispatch_is_case_sensitive {W} (host : Host W) fuel fileUrl ext other s :
  In (lower ext) supported ->
  ext <> lower ext ->
  ~ In other supported ->
  ~ In ext supported /\
  (forall s1, select_document host ext s1 = (Done VUndefined, s1, [])) /\
  run host fuel fileUrl ext s = run host fuel fileUrl other s.
Proof.
  intros _ Hne Hother.
  assert (~ In ext supported) as Hext.
  { intros H. apply Hne. symmetry. now apply lower_supported. }
  split; [assumption|]. split.
  - intros s1. now apply select_document_none, accessor_call_unsupported.
  - now rewrite !run_unsupported.
Qed.

Lemma dispatch_is_case_sensitive_witness :
  run snapshot_host 5 "report.docx" "DOCX" (one_file "report.docx" report true) =
  run snapshot_host 5 "report.docx" "pdf" (one_file "report.docx" report true).
Proof.
  apply (dispatch_is_case_sensitive snapshot_host 5 "report.docx" (ext := "DOCX")
           (other := "pdf") (one_file "report.docx" report true)).
  - vm_compute. auto.
  - discriminate.
  - cbn. intros [H | [H | [H | [H | []]]]]; discriminate.
Defined.

(** C10, as the code has it: take two runs with the same file URL, the same
    extension and the same comment snapshot (left as it is by [Delete]), each
    with fuel for its loop, in which the calls are answered alike: call by
    call, as far as both runs go, a call returns in both or throws in both.
    Then both runs stop at the same place and the two hosts receive the same
    sequence of calls.  The hosts, their stores and the fuel may differ, and
    nothing is assumed about the length of either run. *)
Theorem calls_determined_by_inputs_and_results {W1 W2}
    (host1 : Host W1) (host2 : Host W2) fuel1 fuel2 fileUrl ext s1 s2
    a1 a2 s1' s2' t1 t2 cs :
  fetch host1 fileUrl ext s1 = (Done (VRef a1), s1', t1) ->
  arrays s1' !! a1 = Some (map VRef cs) ->
  stable host1 a1 ->
  length cs < fuel1 ->
  fetch host2 fileUrl ext s2 = (Done (VRef a2), s2', t2) ->
  arrays s2' !! a2 = Some (map VRef cs) ->
  stable host2 a2 ->
  length cs < fuel2 ->
  answered_alike (res_trace (run host1 fuel1 fileUrl ext s1))
                 (res_trace (run host2 fuel2 fileUrl ext s2)) ->
  calls (res_trace (run host1 fuel1 fileUrl ext s1)) =
    calls (res_trace (run host2 fuel2 fileUrl ext s2)) /\
  received host1 fuel1 fileUrl ext s1 = received host2 fuel2 fileUrl ext s2.
Proof.
  intros Hf1 Ha1 Hst1 Hfuel1 Hf2 Ha2 Hst2 Hfuel2 Hal.
  rewrite !log_is_faithful.
  assert (calls (res_trace (run host1 fuel1 fileUrl ext s1)) =
          calls (res_trace (run host2 fuel2 fileUrl ext s2))) as H; [|now split].
  eapply stops_in_alike; [| |exact Hal].
  - exact (@run_snapshot_ends W1 host1 fuel1 fileUrl ext s1 a1 s1' t1 cs
             Hf1 Ha1 Hst1 Hfuel1).
  - exact (@run_snapshot_ends W2 host2 fuel2 fileUrl ext s2 a2 s2' t2 cs
             Hf2 Ha2 Hst2 Hfuel2).
Qed.

Lemma calls_determined_by_inputs_and_results_witness :
  calls (res_trace (run snapshot_host 4 "report.docx" "docx"
                      (one_file "report.docx" report false))) =
    calls (res_trace (run snapshot_host 7 "report.docx" "docx"
                        (mkStore {[ 3 := [VUndefined] ]}
                           (mkWorld {[ "report.docx" := report; "old.xls" := budget ]}
                                    None false 50)))) /\
  received snapshot_host 4 "report.docx" "docx" (one_file "report.docx" report false) =
    received snapshot_host 7 "report.docx" "docx"
      (mkStore {[ 3 := [VUndefined] ]}
         (mkWorld {[ "report.docx" := report; "old.xls" := budget ]} None false 50)).
Proof.
  apply (@calls_determined_by_inputs_and_results World World
           snapshot_host snapshot_host 4 7 "report.docx" "docx"
           (one_file "report.docx" report false)
           (mkStore {[ 3 := [VUndefined] ]}
              (mkWorld {[ "report.docx" := report; "old.xls" := budget ]}
                       None false 50))
           10 50
           (res_store (fetch snapshot_host "report.docx" "docx"
                         (one_file "report.docx" report false)))
           (res_store (fetch snapshot_host "report.docx" "docx"
              (mkStore {[ 3 := [VUndefined] ]}
                 (mkWorld {[ "report.docx" := report; "old.xls" := budget ]}
                          None false 50))))
           (res_trace (fetch snapshot_host "report.docx" "docx"
                         (one_file "report.docx" report false)))
           (res_trace (fetch snapshot_host "report.docx" "docx"
              (mkStore {[ 3 := [VUndefined] ]}
                 (mkWorld {[ "report.docx" := report; "old.xls" := budget ]}
                          None false 50))))
           [21; 22; 23]).
  - vm_compute. reflexivity.
  - vm_compute. reflexivity.
  - apply snapshot_host_stable.
  - cbn. lia.
  - vm_compute. reflexivity.
  - vm_compute. reflexivity.
  - apply snapshot_host_stable.
  - cbn. lia.
  - intros k e1 e2 H1 H2. vm_compute in H1, H2.
    do 7 (destruct k as [|k];
          [injection H1 as <-; injection H2 as <-; reflexivity|]).
    discriminate.
Defined.

(** C10, as stated, fails: two runs with the same file URL, the same
    extension and the same snapshot 21, 22, 23, of which the second cannot
    write its output, issue different sequences of calls (the second issues
    no [CloseFile]). *)
Lemma same_inputs_different_calls :
  snapshot_of (fetch snapshot_host "report.docx" "docx"
                 (one_file "report.docx" report true))
    = Some (map VRef [21; 22; 23]) /\
  snapshot_of (fetch snapshot_host "report.docx" "docx"
                 (one_file "report.docx" report false))
    = Some (map VRef [21; 22; 23]) /\
  calls (res_trace (run snapshot_host 4 "report.docx" "docx"
                      (one_file "report.docx" report true))) <>
  calls (res_trace (run snapshot_host 4 "report.docx" "docx"
                      (one_file "report.docx" report false))).
Proof.
  vm_compute. repeat split. discriminate.
Qed.

(** * Further properties of the script *)

(** ** What the enumeration step may hand back *)





(** X3: when [GetAllComments] returns [undefined], reading
    [aComments.length] throws a [TypeError]: the run ends there, with the
    store as [GetAllComments] left it and with no [Delete], [SaveFile] or
    [CloseFile] issued. *)
Theorem undefined_enumeration_throws {W} (host : Host W) fuel fileUrl ext s s3 t0 :
  0 < fuel ->
  fetch host fileUrl ext s = (Done VUndefined, s3, t0) ->
  run host fuel fileUrl ext s = (Throw TypeError, s3, ok (head_calls fileUrl ext)).
Proof.
  intros Hfuel Hf.
  rewrite (run_after_fetch host fuel _ _ _ Hf).
  destruct (fetch_form host 0 _ _ _ Hf) as [_ ->].
  destruct fuel as [|fuel]; [lia|]. cbn. now rewrite app_nil_r.
Qed.

Lemma undefined_enumeration_throws_witness :
  run (canned_host VUndefined) 1 "report.docx" "xls" (mkStore ∅ tt) =
  (Throw TypeError, mkStore ∅ tt, ok (head_calls "report.docx" "xls")).
Proof.
  apply (@undefined_enumeration_throws unit (canned_host VUndefined) 1
           "report.docx" "xls" (mkStore ∅ tt) (mkStore ∅ tt)
           (ok (head_calls "report.docx" "xls"))).
  - lia.
  - reflexivity.
Defined.




(** ** The loop over an array that shrinks under it *)









(** ** How often each step is taken *)




(** ** What reaches the files *)

Section Output.
Context {W : Type} (host : Host W).
Context (files : W -> gmap string Doc) (opened : W -> option Doc).
Hypothesis Hfiles : only_save_writes files host.
Hypothesis Hcopy : edits_session_copy files opened host.

(** Lines 16-21 either leave the files alone or write the document without
    its comments. *)
Lemma strip_and_save_files fuel ext a s3 doc :
  stable host a ->
  opened (world s3) = Some doc ->
  arrays s3 !! a = Some (map VRef (comments doc)) ->
  files (world (res_store (strip_and_save host fuel ext (VRef a) s3))) =
    files (world s3) \/
  files (world (res_store (strip_and_save host fuel ext (VRef a) s3))) =
    <[output_name ext := mkDoc (body doc) []]> (files (world s3)).
Proof.
  intros Hst Ho3 Ha. set (cs := comments doc) in *.
  destruct (strip_and_save host fuel ext (VRef a) s3) as [[o s'] t] eqn:Hs.
  revert Hs. unfold strip_and_save, bind, host_call.
  destruct (delete_loop host fuel (VRef a) 0 s3) as [[o1 s4] tl] eqn:HL.
  cbn [res_store fst snd].
  destruct (@delete_loop_inv W host
              (fun j st => arrays st !! a = Some (map VRef cs) /\
                           opened (world st) =
                             Some (mkDoc (body doc) (filter (fun x => x ∉ take j cs) cs)) /\
                           files (world st) = files (world s3))
              a cs fuel)
    with (i := 0) (s := s3) (o := o1) (s' := s4) (t := tl)
    as [(-> & _ & _ & Ho4 & Hf4) |
        [(k & c & e & st & -> & _ & (_ & _ & Hfst) & HD & _) | (-> & _ & (_ & _ & Hf4) & _)]];
    auto using Nat.le_0_l.
  - intros j c st st' Hc (Harr & Hop' & Hfl) HD.
    pose proof (esc_delete Hcopy _ _ HD) as Hop''.
    rewrite (Hst _ _ _ HD), Hop'', Hop', (osw_delete Hfiles _ _ HD). cbn.
    unfold remove_comment. cbn.
    now rewrite remove_comment_step, <- (take_S_r _ _ _ Hc).
  - tauto.
  - split; [assumption|]. split; [|reflexivity].
    rewrite Ho3. cbn [take]. rewrite filter_not_in_nil.
    unfold cs. now destruct doc.
  - rewrite take_ge, filter_not_in_self in Ho4 by auto.
    destruct (SaveFile host ext (output_name ext) s4) as [[[]|e] s5] eqn:HS.
    + destruct (esc_save Hcopy _ _ _ HS) as (doc4 & Hd4 & Hf5).
      rewrite Ho4 in Hd4. injection Hd4 as <-.
      destruct (CloseFile host s5) as [[[]|e] s6] eqn:HC; intros [= <- <- <-];
        right; now rewrite (osw_close Hfiles _ HC), Hf5, Hf4.
    + intros [= <- <- <-]. left.
      now rewrite (osw_save_fails Hfiles _ _ _ HS).
  - intros [= <- <- <-]. left. now rewrite (osw_delete Hfiles _ _ HD).
  - intros [= <- <- <-]. now left.
Qed.

(** A run in which every call returns: it completes, with the comments
    deleted and the document written. *)
Lemma contract_run_completes fuel fileUrl ext s doc :
  returns_snapshot host fileUrl ext s ->
  files (world s) !! fileUrl = Some doc ->
  In ext supported ->
  length (comments doc) < fuel ->
  (forall c e, ~ In (c, Some e) (res_trace (run host fuel fileUrl ext s))) ->
  res_outcome (run host fuel fileUrl ext s) = Done tt /\
  deletions (res_trace (run host fuel fileUrl ext s)) = comments doc /\
  files (world (res_store (run host fuel fileUrl ext s))) =
    <[output_name ext := mkDoc (body doc) []]> (files (world s)).
Proof.
  intros Hsnap Hdoc Hext Hfuel Hall.
  destruct (fetch_contract Hfiles Hcopy fileUrl s Hext Hdoc)
    as [(c & e & s' & pre & Hf) | (a & s3 & Hf & Ho & Ha & Hfl)].
  { exfalso. rewrite (run_fetch_throws host fuel _ _ _ Hf) in Hall.
    apply (Hall c e). apply in_app_iff. right. now left. }
  rewrite (run_after_fetch host fuel _ _ _ Hf) in *.
  destruct (@strip_and_save_contract W host files opened Hfiles Hcopy
              fuel ext a s3 doc (Hsnap _ _ _ Hf) Ho Ha Hfuel)
    as [(c & e & s' & pre & Hs) | (s' & Hs & Hfl')].
  { exfalso. rewrite Hs in Hall. apply (Hall c e). cbn [res_trace snd].
    rewrite !in_app_iff. right. right. now left. }
  rewrite Hs. cbn [res_outcome res_store res_trace fst snd].
  rewrite <- ok_plan.
  split; [reflexivity|]. split.
  - unfold deletions. rewrite calls_ok. apply deletions_plan.
  - now rewrite Hfl', Hfl.
Qed.

End Output.

(** X7: the output is all or nothing.  On a host that edits a session copy
    and writes files only in [SaveFile], and whose [Delete] leaves the array
    that [GetAllComments] returned to this run as it is: whatever the
    extension, the fuel and the failures along the way, a run on a document
    either leaves every file as it was or writes, under the output name, the
    document with all its comments removed and its body unchanged; a document
    with only some of its comments removed is never written, and no file
    under another name ever changes. *)
Theorem output_is_all_or_nothing {W} (host : Host W)
    (files : W -> gmap string Doc) (opened : W -> option Doc)
    fuel fileUrl ext s doc :
  only_save_writes files host ->
  edits_session_copy files opened host ->
  returns_snapshot host fileUrl ext s ->
  files (world s) !! fileUrl = Some doc ->
  (files (world (res_store (run host fuel fileUrl ext s))) = files (world s) \/
   files (world (res_store (run host fuel fileUrl ext s))) =
     <[output_name ext := mkDoc (body doc) []]> (files (world s))) /\
  (forall name, name <> output_name ext ->
     files (world (res_store (run host fuel fileUrl ext s))) !! name =
     files (world s) !! name).
Proof.
  intros Hfiles Hcopy Hsnap Hdoc.
  assert (files (world (res_store (run host fuel fileUrl ext s))) = files (world s) \/
          files (world (res_store (run host fuel fileUrl ext s))) =
            <[output_name ext := mkDoc (body doc) []]> (files (world s))) as H.
  { destruct (in_dec string_dec ext supported) as [Hext | Hext].
    - destruct (fetch_contract Hfiles Hcopy fileUrl s Hext Hdoc)
        as [(c & e & s' & pre & Hf) | (a & s3 & Hf & Ho & Ha & Hfl)].
      + left. rewrite (run_fetch_throws host fuel _ _ _ Hf).
        pose proof (fetch_keeps_files Hfiles fileUrl ext s) as Hk.
        now rewrite Hf in Hk.
      + rewrite (run_after_fetch host fuel _ _ _ Hf). cbn [res_store fst snd].
        rewrite <- Hfl.
        apply (@strip_and_save_files W host files opened Hfiles Hcopy fuel ext a s3 doc
                 (Hsnap _ _ _ Hf) Ho Ha).
    - left. rewrite (run_unsupported host fuel fileUrl s Hext).
      destruct (OpenFile host fileUrl s) as [[[]|e] s1] eqn:HO; cbn;
        eapply osw_open; eauto. }
  split; [exact H|].
  intros name Hname. destruct H as [-> | ->]; [reflexivity|].
  now rewrite lookup_insert_ne.
Qed.

Lemma output_is_all_or_nothing_witness :
  disk (world (res_store (run snapshot_host 4 "report.docx" "docx"
                            (one_file "report.docx" report true))))
    = <[ "output.docx" := mkDoc "Quarterly report" [] ]> {[ "report.docx" := report ]} /\
  disk (world (res_store (run snapshot_host 2 "report.docx" "docx"
                            (one_file "report.docx" report true))))
    = {[ "report.docx" := report ]}.
Proof.
  split.
  - destruct (proj1 (@output_is_all_or_nothing World snapshot_host disk session 4
                       "report.docx" "docx" (one_file "report.docx" report true) report
                       snapshot_host_only_save_writes snapshot_host_edits_session_copy
                       (snapshot_host_returns_snapshot _ _ _) eq_refl)) as [H | H].
    + apply (f_equal (fun m => m !! "output.docx")) in H.
      vm_compute in H. discriminate.
    + exact H.
  - destruct (proj1 (@output_is_all_or_nothing World snapshot_host disk session 2
                       "report.docx" "docx" (one_file "report.docx" report true) report
                       snapshot_host_only_save_writes snapshot_host_edits_session_copy
                       (snapshot_host_returns_snapshot _ _ _) eq_refl)) as [H | H].
    + exact H.
    + apply (f_equal (fun m => m !! "output.docx")) in H.
      vm_compute in H. discriminate.
Defined.

(** X8: stripping is idempotent.  On a host that edits a session copy and
    writes files only in [SaveFile], and whose [Delete] leaves the array that
    [GetAllComments] returned as it is in both runs: after a run in which
    every call returned, a second run of the script on the file it wrote
    (again with every call returning) issues no [Delete] at all, completes,
    and leaves every file exactly as the first run left it. *)
Theorem rerun_on_output_changes_nothing {W} (host : Host W)
    (files : W -> gmap string Doc) (opened : W -> option Doc)
    fuel fuel' fileUrl ext s doc :
  only_save_writes files host ->
  edits_session_copy files opened host ->
  returns_snapshot host fileUrl ext s ->
  returns_snapshot host (output_name ext) ext
    (res_store (run host fuel fileUrl ext s)) ->
  files (world s) !! fileUrl = Some doc ->
  In ext supported ->
  length (comments doc) < fuel ->
  0 < fuel' ->
  (forall c e, ~ In (c, Some e) (res_trace (run host fuel fileUrl ext s))) ->
  (forall c e,
     ~ In (c, Some e)
          (res_trace (run host fuel' (output_name ext) ext
                        (res_store (run host fuel fileUrl ext s))))) ->
  res_outcome (run host fuel' (output_name ext) ext
                 (res_store (run host fuel fileUrl ext s))) = Done tt /\
  deletions (res_trace (run host fuel' (output_name ext) ext
                          (res_store (run host fuel fileUrl ext s)))) = [] /\
  files (world (res_store (run host fuel' (output_name ext) ext
                             (res_store (run host fuel fileUrl ext s))))) =
  files (world (res_store (run host fuel fileUrl ext s))).
Proof.
  intros Hfiles Hcopy Hsnap Hsnap' Hdoc Hext Hfuel Hfuel' Hall Hall'.
  destruct (@contract_run_completes W host files opened Hfiles Hcopy
              fuel fileUrl ext s doc Hsnap Hdoc Hext Hfuel Hall)
    as (_ & _ & Hf1).
  assert (files (world (res_store (run host fuel fileUrl ext s))) !! output_name ext =
          Some (mkDoc (body doc) [])) as Hout
    by now rewrite Hf1, lookup_insert_eq.
  destruct (@contract_run_completes W host files opened Hfiles Hcopy
              fuel' (output_name ext) ext
              (res_store (run host fuel fileUrl ext s)) (mkDoc (body doc) [])
              Hsnap' Hout Hext Hfuel' Hall')
    as (Hd & Hdel & Hf2).
  split; [assumption|]. split; [assumption|].
  rewrite Hf2, Hf1. cbn. now rewrite insert_insert_eq.
Qed.

Lemma rerun_on_output_changes_nothing_witness :
  disk (world (res_store (run snapshot_host 1 "output.docx" "docx"
     (res_store (run snapshot_host 4 "report.docx" "docx"
                   (one_file "report.docx" report true)))))) =
  disk (world (res_store (run snapshot_host 4 "report.docx" "docx"
                            (one_file "report.docx" report true)))).
Proof.
  apply (@rerun_on_output_changes_nothing World snapshot_host disk session 4 1
           "report.docx" "docx" (one_file "report.docx" report true) report
           snapshot_host_only_save_writes snapshot_host_edits_session_copy).
  - apply snapshot_host_returns_snapshot.
  - apply snapshot_host_returns_snapshot.
  - vm_compute. reflexivity.
  - cbn. auto.
  - cbn. lia.
  - lia.
  - intros c e H. vm_compute in H.
    repeat (destruct H as [H | H]; [discriminate|]). destruct H.
  - intros c e H. vm_compute in H.
    repeat (destruct H as [H | H]; [discriminate|]). destruct H.
Defined.

(** X9: what becomes of the source.  On a host that edits a session copy
    and writes files only in [SaveFile], and whose [Delete] leaves the array
    that [GetAllComments] returned to this run as it is: after a run in which
    every call returned, a source stored under any name other than the output
    name is still there with all its comments; a source that is itself stored
    under the output name has been replaced by its stripped copy. *)
Theorem source_kept_unless_named_output {W} (host : Host W)
    (files : W -> gmap string Doc) (opened : W -> option Doc)
    fuel fileUrl ext s doc :
  only_save_writes files host ->
  edits_session_copy files opened host ->
  returns_snapshot host fileUrl ext s ->
  files (world s) !! fileUrl = Some doc ->
  In ext supported ->
  length (comments doc) < fuel ->
  (forall c e, ~ In (c, Some e) (res_trace (run host fuel fileUrl ext s))) ->
  (fileUrl <> output_name ext ->
   files (world (res_store (run host fuel fileUrl ext s))) !! fileUrl = Some doc) /\
  (fileUrl = output_name ext ->
   files (world (res_store (run host fuel fileUrl ext s))) !! fileUrl =
     Some (mkDoc (body doc) [])).
Proof.
  intros Hfiles Hcopy Hsnap Hdoc Hext Hfuel Hall.
  destruct (@contract_run_completes W host files opened Hfiles Hcopy
              fuel fileUrl ext s doc Hsnap Hdoc Hext Hfuel Hall)
    as (_ & _ & ->).
  split.
  - intros Hne. now rewrite lookup_insert_ne.
  - intros ->. now rewrite lookup_insert_eq.
Qed.

Lemma source_kept_unless_named_output_witness :
  disk (world (res_store (run snapshot_host 4 "output.docx" "docx"
                            (one_file "output.docx" report true))))
    !! "output.docx" = Some (mkDoc "Quarterly report" []).
Proof.
  apply (@source_kept_unless_named_output World snapshot_host disk session 4
           "output.docx" "docx" (one_file "output.docx" report true) report
           snapshot_host_only_save_writes snapshot_host_edits_session_copy).
  - apply snapshot_host_returns_snapshot.
  - vm_compute. reflexivity.
  - cbn. auto.
  - cbn. lia.
  - intros c e H. vm_compute in H.
    repeat (destruct H as [H | H]; [discriminate|]). destruct H.
  - reflexivity.
Defined.
